(** * fx_convert: quality-scale guessing and conversion

    A shallow embedding of [apps/fx_tools/fx_convert.cpp]: the quality format
    guess ([QualityFormatGuess], [bestGuess], [updateQualityFormatGuess]), the
    256-entry conversion table ([buildConversionTable]) and the driver
    ([runConvert]).

    Conventions.
    - A C++ [char], [int] or [unsigned] value is a [Z]; a quality string is the
      list of its [char] values, as the comparisons of the code see them.
    - A [double] is an IEEE binary64 number ([PrimFloat.float]); the arithmetic
      of the code is the primitive arithmetic, while the two <cmath> functions
      the code calls, [pow] and [log10], are parameters of the development.
    - [char table[256]] is a [list Z], written with stdpp's list insert.
    - SeqAn's record reader and writer are collaborators: the reader is given
      by the outcomes of its [readRecord] calls, the writer by the status it
      returns for every record handed to it. *)

From Stdlib Require Import ZArith Lia Floats.
From stdpp Require Import base list list_numbers strings pretty.

Local Open Scope Z_scope.

(** ** Small preliminaries *)

(** The line feed character the messages end with. *)
Definition nl : string := String (Ascii.ascii_of_nat 10) EmptyString.

(** Outcome of a computation that may stop the program: SEQAN_FAIL and a
    failing SEQAN_ASSERT abort with a message. *)
Inductive Res (A : Type) : Type :=
  | Val (a : A)
  | Failed (msg : string).
Arguments Val {A} a.
Arguments Failed {A} msg.

(** [for (i = lo; n iterations; ++i) s = body(i, s)], stopping at the first
    failure. *)
Fixpoint for_loop {State : Type} (n : nat) (i : Z) (body : Z → State → Res State) (s : State)
  : Res State :=
  match n with
  | O => Val s
  | S n' =>
      match body i s with
      | Val s' => for_loop n' (i + 1) body s'
      | Failed msg => Failed msg
      end
  end.

(** ** Argument parsing: the options record *)

Inductive Format : Type := AUTO | FASTA | FASTQ_ILLUMINA | FASTQ_SANGER | FASTQ_SOLEXA.

Record FxConvertOptions : Type := {
  renameToNumbers : bool;
  keepNs : bool;
  verbosity : Z;
  gzip : bool;
  guessFormat : bool;
  sourceFormat : Format;
  targetFormat : Format
}.

(** ** Quality guessing *)

Record QualityFormatGuess : Type := {
  sanger : bool;
  solexa : bool;
  illumina : bool
}.

Inductive BestGuess : Type := NONE | SANGER | SOLEXA | ILLUMINA.

(** The constructor [QualityFormatGuess()]. *)
Definition newQualityFormatGuess : QualityFormatGuess :=
  {| sanger := true; solexa := true; illumina := true |}.

(** [bool] promoted to [int] in [guess.sanger + guess.solexa + guess.illumina]. *)
Definition int_of_bool (b : bool) : Z := if b then 1 else 0.

Definition bestGuess (guess : QualityFormatGuess) : BestGuess :=
  if negb (int_of_bool (sanger guess) + int_of_bool (solexa guess)
           + int_of_bool (illumina guess) =? 1)
  then NONE
  else if sanger guess then SANGER
  else if solexa guess then SOLEXA
  else if illumina guess then ILLUMINA
  else NONE.

(** One iteration of the loop of [updateQualityFormatGuess] past the validity
    test: the three narrowing assignments. *)
Definition narrow (guess : QualityFormatGuess) (c : Z) : QualityFormatGuess :=
  let g1 := if 74 <? c
            then {| sanger := false; solexa := solexa guess; illumina := illumina guess |}
            else guess in
  let g2 := if c <? 59
            then {| sanger := sanger g1; solexa := false; illumina := illumina g1 |}
            else g1 in
  if c <? 64
  then {| sanger := sanger g2; solexa := solexa g2; illumina := false |}
  else g2.

(** [updateQualityFormatGuess(guess, quals)]: the returned flag, the guess as
    the call leaves it, and what the call printed on [std::cerr].  The validity
    test is the code's: [c < 33 && c > 104]. *)
Fixpoint updateQualityFormatGuess (guess : QualityFormatGuess) (quals : list Z)
  : bool * QualityFormatGuess * string :=
  match quals with
  | [] => (true, guess, "")
  | c :: rest =>
      if (c <? 33) && (104 <? c)
      then (false, guess, "ERROR: Invalid quality " +:+ pretty c +:+ "!" +:+ nl)
      else updateQualityFormatGuess (narrow guess c) rest
  end.

(** ** Quality conversion *)

Definition INT_MIN : Z := - 2 ^ 31.
Definition INT_MAX : Z := 2 ^ 31 - 1.

(** [int] to [double]: exact, every 32-bit integer is a binary64 number. *)
Definition double_of_int (z : Z) : float :=
  if z <? 0
  then (- PrimFloat.of_uint63 (Uint63.of_Z (- z)))%float
  else PrimFloat.of_uint63 (Uint63.of_Z z).

Section Conversion.

(** The <cmath> functions of the platform. *)
Variable pow : float → float → float.
Variable log10 : float → float.
(** What the platform yields when a [double] that no [int] represents (NaN,
    an infinity, a value out of range) is converted to [int]; C++ leaves
    that conversion undefined. *)
Variable double_to_int_undefined : float → Z.
(** Whether SEQAN_ASSERT_* are compiled in. *)
Variable SEQAN_ENABLE_DEBUG : bool.
(** Whether plain [char] is signed on the platform. *)
Variable char_is_signed : bool.

(** [double] to [int]: truncation towards zero. *)
Definition double_to_int (x : float) : Z :=
  match Prim2SF x with
  | S754_zero _ => 0
  | S754_finite s m e =>
      let a := Z.shiftl (Z.pos m) e in
      let v := if s then - a else a in
      if (INT_MIN <=? v) && (v <=? INT_MAX) then v else double_to_int_undefined x
  | _ => double_to_int_undefined x
  end.

(** [static_cast<char>(q)]. *)
Definition static_cast_char (q : Z) : Z :=
  if char_is_signed then (q + 128) mod 256 - 128 else q mod 256.

(** [static_cast<__uint8>(c)]. *)
Definition static_cast_uint8 (c : Z) : Z := c mod 256.

(** SEQAN_ASSERT_*: a failing assertion aborts when assertions are compiled
    in, and is not evaluated otherwise. *)
Definition SEQAN_ASSERT (cond : bool) (msg : string) : Res unit :=
  if SEQAN_ENABLE_DEBUG && negb cond then Failed msg else Val tt.

(** [table[i] = v]. *)
Definition store (i v : Z) (table : list Z) : list Z := <[Z.to_nat i := v]> table.

(** "Get minimum and maximum source value." *)
Definition sourceRange (source : BestGuess) : Res (Z * Z) :=
  match source with
  | SANGER => Val (33, 126)
  | SOLEXA => Val (59, 126)
  | ILLUMINA => Val (64, 126)
  | NONE => Failed "ERROR: Cannot build conversion table for unknown source."
  end.

(** Body of the first loop: "Initialize, everything with minimum or maximum
    value." *)
Definition initEntry (target : BestGuess) (from : Z) (i : Z) (table : list Z) : Res (list Z) :=
  match target with
  | SANGER => Val (store i (if i <=? from then 33 else 73) table)
  | SOLEXA => Val (store i (if i <=? from then 59 else 104) table)
  | ILLUMINA => Val (store i (if i <=? from then 64 else 104) table)
  | NONE => Val table
  end.

(** "Convert from quality i to error probability." *)
Definition errorProbability (source : BestGuess) (i : Z) : float :=
  match source with
  | SANGER => pow 10 (double_of_int (i - 33) / - 10)
  | SOLEXA => 1 / (pow 10 (double_of_int (i - 64) / 10) + 1)
  | _ => pow 10 (double_of_int (i - 64) / - 10)
  end%float.

(** "Now convert from error probability to quality." *)
Definition targetQuality (target : BestGuess) (p : float) : Z :=
  match target with
  | SANGER =>
      let q := double_to_int (- 10 * log10 p)%float in
      let q := if q <? 0 then 0 else q in
      let q := if 93 <? q then 93 else q in
      q + 33
  | SOLEXA =>
      let q := double_to_int (- 10 * log10 (p / (1 - p)))%float in
      let q := if q <? -5 then -5 else q in
      let q := if 62 <? q then 62 else q in
      q + 64
  | _ =>
      let q := double_to_int (- 10 * log10 p)%float in
      let q := if q <? 0 then 62 else q in
      let q := if 0 <? q then 62 else q in
      q + 64
  end.

(** Body of the second loop, up to the value stored in [table[i]]. *)
Definition convertEntry (source target : BestGuess) (i : Z) : Res Z :=
  let p := errorProbability source i in
  match SEQAN_ASSERT (0 <=? p)%float "SEQAN_ASSERT_GEQ(p, 0.0)" with
  | Failed msg => Failed msg
  | Val _ =>
  match SEQAN_ASSERT (p <=? 1)%float "SEQAN_ASSERT_LEQ(p, 1.0)" with
  | Failed msg => Failed msg
  | Val _ =>
  let q := targetQuality target p in
  match SEQAN_ASSERT (0 <? q) "SEQAN_ASSERT_GT(q, 0)" with
  | Failed msg => Failed msg
  | Val _ =>
  match SEQAN_ASSERT (q <? 255) "SEQAN_ASSERT_LT(q, 255)" with
  | Failed msg => Failed msg
  | Val _ => Val (static_cast_char q)
  end end end end.

Definition convertBody (source target : BestGuess) (i : Z) (table : list Z) : Res (list Z) :=
  match convertEntry source target i with
  | Val q => Val (store i q table)
  | Failed msg => Failed msg
  end.

(** [buildConversionTable(table, source, target)]: the table as the call
    leaves it.  The caller passes an array of 256 entries. *)
Definition buildConversionTable (table : list Z) (source target : BestGuess) : Res (list Z) :=
  match sourceRange source with
  | Failed msg => Failed msg
  | Val (from, to) =>
      match for_loop 256 0 (initEntry target from) table with
      | Failed msg => Failed msg
      | Val table1 =>
          for_loop (Z.to_nat (to + 1 - from)) from (convertBody source target) table1
      end
  end.

End Conversion.

(** ** Main program *)

Global Instance BestGuess_eq_dec : EqDecision BestGuess.
Proof. solve_decision. Defined.

(** [seqan::Dna5String]: the code only moves sequences around. *)
Inductive Dna5 : Type := DnaA | DnaC | DnaG | DnaT | DnaN.
Definition Dna5String : Type := list Dna5.

(** One call of [readRecord]: the status it returns, and [id], [seq] and
    [qual] as the call leaves them. *)
Record ReadOutcome : Type := {
  read_res : Z;
  rec_id : string;
  rec_seq : Dna5String;
  rec_qual : list Z
}.

(** What the record reader yields in one run: the result of
    [checkStreamFormat] ([None] when it fails, the [tagId] otherwise), the
    [readRecord] calls made until [atEnd] inside the scope of the
    [LimitRecordReaderInScope], and those made until [atEnd] by the loop that
    writes records out. *)
Record Reader : Type := {
  checkStreamFormat : option Z;
  limitedReads : list ReadOutcome;
  reads : list ReadOutcome
}.

(** What is handed to the output stream. *)
Inductive OutEvent : Type :=
  | Put (text : string)
  | WriteFasta (id : string) (seq : Dna5String)
  | WriteFastq (id : string) (seq : Dna5String) (qual : list Z).

(** The three streams of [runConvert]: [out], [err], and [std::cerr], which
    the function also names directly. *)
Record Streams : Type := {
  out : list OutEvent;
  err : string;
  cerr : string
}.

Definition noOutput : Streams := {| out := []; err := ""; cerr := "" |}.

(** A step of [runConvert]: it goes on with a value, leaves the function with
    [return code], or aborts the program. *)
Inductive Step (A : Type) : Type :=
  | Next (a : A)
  | Return (code : Z)
  | Abort (msg : string).
Arguments Next {A} a.
Arguments Return {A} code.
Arguments Abort {A} msg.

Definition M (A : Type) : Type := Streams → Step A * Streams.

Global Instance M_ret : MRet M := λ A a s, (Next a, s).
Global Instance M_bind : MBind M := λ A B f m s,
  match m s with
  | (Next a, s') => f a s'
  | (Return code, s') => (Return code, s')
  | (Abort msg, s') => (Abort msg, s')
  end.

Definition returnWith {A : Type} (code : Z) : M A := λ s, (Return code, s).
Definition abortWith {A : Type} (msg : string) : M A := λ s, (Abort msg, s).
Definition skip : M unit := mret tt.

Definition streamPut (text : string) : M unit :=
  λ s, (Next tt, {| out := out s ++ [Put text]; err := err s; cerr := cerr s |}).
Definition putErr (text : string) : M unit :=
  λ s, (Next tt, {| out := out s; err := err s +:+ text; cerr := cerr s |}).
Definition putCerr (text : string) : M unit :=
  λ s, (Next tt, {| out := out s; err := err s; cerr := cerr s +:+ text |}).

(** The [switch (formatGuess)] that names the scale. *)
Definition formatName (formatGuess : BestGuess) : string :=
  match formatGuess with
  | SOLEXA => "text/x-fastq-solexa"
  | ILLUMINA => "text/x-fastq-illumina"
  | _ => "text/x-fastq-sanger"
  end.

(** The [switch (options.targetFormat)]. *)
Definition outFormatOf (target : Format) : BestGuess :=
  match target with
  | FASTQ_ILLUMINA => ILLUMINA
  | FASTQ_SANGER => SANGER
  | FASTQ_SOLEXA => SOLEXA
  | _ => NONE
  end.

(** The flag of a scale in a guess, and the scales a guess still allows, in
    the order the diagnostics name them. *)
Definition possible (guess : QualityFormatGuess) (e : BestGuess) : bool :=
  match e with
  | SANGER => sanger guess
  | SOLEXA => solexa guess
  | ILLUMINA => illumina guess
  | NONE => false
  end.

Definition candidates (guess : QualityFormatGuess) : list BestGuess :=
  filter (λ e, possible guess e = true) [SANGER; SOLEXA; ILLUMINA].

Definition couldBe (e : BestGuess) : string :=
  match e with
  | SANGER => "Could be Sanger." +:+ nl
  | SOLEXA => "Could be Solexa." +:+ nl
  | ILLUMINA => "Could be Illumina." +:+ nl
  | NONE => ""
  end.

Definition ambiguousHeader : string :=
  "ERROR: Could not guess FASTQ quality scale unambiguously!" +:+ nl.

(** [formatGuess = bestGuess(qualityFormatGuess)] and the test that follows
    it in [runConvert]. *)
Definition finalizeGuess (guess : QualityFormatGuess) : M BestGuess :=
  let formatGuess := bestGuess guess in
  match formatGuess with
  | NONE =>
      putCerr ambiguousHeader;;
      (if sanger guess then putCerr ("Could be Sanger." +:+ nl) else skip);;
      (if solexa guess then putCerr ("Could be Solexa." +:+ nl) else skip);;
      (if illumina guess then putCerr ("Could be Illumina." +:+ nl) else skip);;
      returnWith 1
  | _ => mret formatGuess
  end.

(** The quality conversion of one record: [*it = table[(__uint8)*it]] for
    every position of [qual]. *)
Fixpoint convertQualities (table : list Z) (qual : list Z) : list Z :=
  match qual with
  | [] => []
  | c :: rest => table !!! Z.to_nat (static_cast_uint8 c) :: convertQualities table rest
  end.

(** [ss << num++; id = ss.str()] for an [unsigned num]. *)
Definition renamed (options : FxConvertOptions) (num : Z) (id : string) : string :=
  if renameToNumbers options then pretty num else id.
Definition nextNum (options : FxConvertOptions) (num : Z) : Z :=
  if renameToNumbers options then (num + 1) mod 2 ^ 32 else num.

(** The record one iteration of the FASTQ loop hands to [writeRecord]. *)
Definition outputRecord (options : FxConvertOptions) (formatGuess outFormat : BestGuess)
    (table : list Z) (num : Z) (r : ReadOutcome) : OutEvent :=
  let id := renamed options num (rec_id r) in
  match outFormat with
  | NONE => WriteFasta id (rec_seq r)
  | _ =>
      let qual := if decide (formatGuess ≠ outFormat)
                  then convertQualities table (rec_qual r)
                  else rec_qual r in
      WriteFastq id (rec_seq r) qual
  end.

Section Driver.

Variable pow : float → float → float.
Variable log10 : float → float.
Variable double_to_int_undefined : float → Z.
Variable SEQAN_ENABLE_DEBUG : bool.
Variable char_is_signed : bool.
(** SeqAn's status [seqan::EOF_BEFORE_SUCCESS]. *)
Variable EOF_BEFORE_SUCCESS : Z.
(** The status [writeRecord] returns for a record, given what the stream
    took before. *)
Variable writeStatus : list OutEvent → OutEvent → Z.
(** The contents of the local array [qualityConversionTable] before it is
    written. *)
Variable uninitialized : Z → Z.

Definition build := buildConversionTable pow log10 double_to_int_undefined
                      SEQAN_ENABLE_DEBUG char_is_signed.

(** [writeRecord(out, ...)]: the record reaches the stream when the status
    is 0. *)
Definition writeRecord (ev : OutEvent) : M Z :=
  λ s, let st := writeStatus (out s) ev in
       (Next st, if st =? 0
                 then {| out := out s ++ [ev]; err := err s; cerr := cerr s |}
                 else s).

(** The loop that guesses the quality scale. *)
Fixpoint guessLoop (guess : QualityFormatGuess) (rs : list ReadOutcome) : M QualityFormatGuess :=
  match rs with
  | [] => mret guess
  | r :: rs' =>
      if negb (read_res r =? 0) && negb (read_res r =? EOF_BEFORE_SUCCESS)
      then putCerr ("Error reading input!" +:+ nl);; returnWith 1
      else
        let '(ok, guess', msg) := updateQualityFormatGuess guess (rec_qual r) in
        putCerr msg;;
        if negb ok then returnWith 1 else guessLoop guess' rs'
  end.

(** The source scale: guessed when [sourceFormat] is AUTO, taken from the
    options otherwise. *)
Definition sourceGuess (options : FxConvertOptions) (reader : Reader) : M BestGuess :=
  match sourceFormat options with
  | AUTO =>
      guess ← guessLoop newQualityFormatGuess (limitedReads reader);
      finalizeGuess guess
  | FASTQ_ILLUMINA => mret ILLUMINA
  | FASTQ_SANGER => mret SANGER
  | FASTQ_SOLEXA => mret SOLEXA
  | FASTA => abortWith ("Should never reach here!" +:+ nl)
  end.

(** "Now, read the whole file and write out." *)
Fixpoint fastqLoop (options : FxConvertOptions) (formatGuess outFormat : BestGuess)
    (table : list Z) (num : Z) (rs : list ReadOutcome) : M unit :=
  match rs with
  | [] => mret tt
  | r :: rs' =>
      if negb (read_res r =? 0)
      then putCerr ("ERROR: Problem reading FASTQ file!" +:+ nl);; returnWith 1
      else
        let ev := outputRecord options formatGuess outFormat table num r in
        st ← writeRecord ev;
        if negb (st =? 0)
        then
          putCerr (match outFormat with
                   | NONE => "ERROR: Problem writing FASTA file!"
                   | _ => "ERROR: Problem writing FASTQ file!"
                   end +:+ nl);;
          returnWith 1
        else fastqLoop options formatGuess outFormat table (nextNum options num) rs'
  end.

(** "In the case of FASTA, simply read record by record and write out as
    FASTA." *)
Fixpoint fastaLoop (options : FxConvertOptions) (num : Z) (rs : list ReadOutcome) : M unit :=
  match rs with
  | [] => mret tt
  | r :: rs' =>
      if negb (read_res r =? 0)
      then putCerr ("ERROR: Problem reading FASTA file!" +:+ nl);; returnWith 1
      else
        st ← writeRecord (WriteFasta (renamed options num (rec_id r)) (rec_seq r));
        if negb (st =? 0)
        then putCerr ("ERROR: Problem writing FASTA file!" +:+ nl);; returnWith 1
        else fastaLoop options (nextNum options num) rs'
  end.

(** The FASTQ branch of [runConvert]. *)
Definition convertFastq (options : FxConvertOptions) (reader : Reader) : M unit :=
  formatGuess ← sourceGuess options reader;
  let format := formatName formatGuess in
  if guessFormat options
  then
    streamPut "content-type: ";;
    streamPut format;;
    streamPut nl;;
    returnWith 0
  else
    (if 2 <=? verbosity options
     then putErr "Guessed input quality scale to be ";; putErr format;; putErr nl
     else skip);;
    let qualityConversionTable := uninitialized <$> seqZ 0 256 in
    let outFormat := outFormatOf (targetFormat options) in
    table ← (if decide (outFormat ≠ NONE)
             then match build qualityConversionTable formatGuess outFormat with
                  | Val table => mret table
                  | Failed msg => abortWith msg
                  end
             else mret qualityConversionTable);
    fastqLoop options formatGuess outFormat table 1 (reads reader).

Definition runConvert (options : FxConvertOptions) (reader : Reader) : M unit :=
  match checkStreamFormat reader with
  | None => putErr ("ERROR: Cannot determine file format." +:+ nl);; returnWith 1
  | Some tagId =>
      (if 2 <=? verbosity options
       then if tagId =? 1
            then putErr ("File format is FASTA." +:+ nl)
            else putErr ("File format is FASTQ." +:+ nl)
       else skip);;
      (if tagId =? 2
       then convertFastq options reader
       else fastaLoop options 1 (reads reader));;
      returnWith 0
  end.

End Driver.

(** ** Entry point *)

(** The constructor [FxConvertOptions()]. *)
Definition defaultOptions : FxConvertOptions :=
  {| renameToNumbers := false; keepNs := false; verbosity := 0; gzip := false;
     guessFormat := false; sourceFormat := AUTO; targetFormat := FASTA |}.

(** The two members of [FxConvertOptions] that [runConvert] does not read and
    [main] does: [inPath] and [outPath], both empty at construction. *)
Record Paths : Type := {
  inPath : string;
  outPath : string
}.

Definition defaultPaths : Paths := {| inPath := ""; outPath := "" |}.

(** What [seqan::ArgumentParser::parse] returns, as far as the code tells the
    results apart: [PARSE_HELP] stands for every result that is neither
    [PARSE_OK] nor [PARSE_ERROR]. *)
Inductive ParseResult : Type := PARSE_OK | PARSE_ERROR | PARSE_HELP.

Global Instance ParseResult_eq_dec : EqDecision ParseResult.
Proof. solve_decision. Defined.

(** The parser after [parse]: its result, what [isSet] answers for each
    flag, and what [getOptionValue] yields for each option with a value
    ([None] when the option is not set). *)
Record ArgumentParser : Type := {
  parse : ParseResult;
  isSet_rename_to_numbers : bool;
  isSet_keep_with_ns : bool;
  isSet_verbose : bool;
  isSet_very_verbose : bool;
  isSet_guess_format : bool;
  isSet_gzip : bool;
  value_source_format : option string;
  value_target_format : option string;
  value_in_file : option string;
  value_out_file : option string
}.

(** The chain of comparisons on the value of [--source-format] and of
    [--target-format]; [name] is the option's name in the SEQAN_FAIL
    message. *)
Definition formatOfValue (name tmp : string) : Res Format :=
  if decide (tmp = "fasta") then Val FASTA
  else if decide (tmp = "illumina") then Val FASTQ_ILLUMINA
  else if decide (tmp = "sanger") then Val FASTQ_SANGER
  else if decide (tmp = "solexa") then Val FASTQ_SOLEXA
  else Failed ("Invalid valid for --" +:+ name +:+ ": " +:+ tmp +:+ "!").

(** [parseArgs(options, argc, argv)]: the result of [parse], and the options
    as the call leaves them. *)
Definition parseArgs (options : FxConvertOptions) (paths : Paths) (parser : ArgumentParser)
  : Res (ParseResult * FxConvertOptions * Paths) :=
  match parse parser with
  | PARSE_OK =>
      let verbosity1 := if isSet_verbose parser then 1 else verbosity options in
      let verbosity2 := if isSet_very_verbose parser then 2 else verbosity1 in
      match
        match value_source_format parser with
        | Some tmp => formatOfValue "source-format" tmp
        | None => Val (sourceFormat options)
        end
      with
      | Failed msg => Failed msg
      | Val source =>
          match
            match value_target_format parser with
            | Some tmp => formatOfValue "target-format" tmp
            | None => Val (targetFormat options)
            end
          with
          | Failed msg => Failed msg
          | Val target =>
              Val (PARSE_OK,
                   {| renameToNumbers := isSet_rename_to_numbers parser;
                      keepNs := isSet_keep_with_ns parser;
                      verbosity := verbosity2;
                      gzip := isSet_gzip parser;
                      guessFormat := isSet_guess_format parser;
                      sourceFormat := source;
                      targetFormat := target |},
                   {| inPath := default (inPath paths) (value_in_file parser);
                      outPath := default (outPath paths) (value_out_file parser) |})
          end
      end
  | res => Val (res, options, paths)
  end.

(** How the program ends: [main] returns a status, or SEQAN_FAIL or a failing
    assertion aborts it. *)
Inductive Exit : Type :=
  | Exited (code : Z)
  | Aborted (msg : string).

(** The stream [main] passes to [runConvert] as [out]. *)
Inductive Destination : Type :=
  | StdOut
  | GzFile (path : string)
  | PlainFile (path : string).

Definition exitOf (step : Step unit) : Exit :=
  match step with
  | Next _ => Exited 0
  | Return code => Exited code
  | Abort msg => Aborted msg
  end.

Section EntryPoint.

Variable pow : float → float → float.
Variable log10 : float → float.
Variable double_to_int_undefined : float → Z.
Variable SEQAN_ENABLE_DEBUG : bool.
Variable char_is_signed : bool.
Variable EOF_BEFORE_SUCCESS : Z.
Variable uninitialized : Z → Z.
(** The status [writeRecord] returns on each kind of output stream. *)
Variable writeStatusOn : Destination → list OutEvent → OutEvent → Z.
(** What the record reader yields on [std::cin], and on the [std::ifstream]
    of a path (the code does not test whether the file could be opened). *)
Variable cinReader : Reader.
Variable ifstreamReader : string → Reader.
(** Whether [gzopen(path, "wb")] returns a file, and whether the
    [std::ofstream] of a path is [good()]. *)
Variable gzopen : string → bool.
Variable ofstream_good : string → bool.

(** [runConvert(out, std::cerr, in, options)] from [main]: how it ends, the
    stream it wrote to, and what the streams hold.  [main] passes [std::cerr]
    as [err]: in the result both [err] and [cerr] are text printed on
    [std::cerr], [err] what [runConvert] printed through its parameter and
    [cerr] what it printed on [std::cerr] by name. *)
Definition convertOn (dest : Destination) (reader : Reader) (options : FxConvertOptions)
  : Exit * option Destination * Streams :=
  let r := runConvert pow log10 double_to_int_undefined SEQAN_ENABLE_DEBUG char_is_signed
             EOF_BEFORE_SUCCESS (writeStatusOn dest) uninitialized options reader noOutput in
  (exitOf r.1, Some dest, r.2).

(** The choice of the output stream; [main] has it once for [std::cin] and
    once for the input file. *)
Definition convertFrom (reader : Reader) (options : FxConvertOptions) (paths : Paths)
  : Exit * option Destination * Streams :=
  if decide (outPath paths = "")
  then convertOn StdOut reader options
  else if gzip options
  then
    if gzopen (outPath paths)
    then convertOn (GzFile (outPath paths)) reader options
    else (Exited 1, None,
          {| out := []; err := ""; cerr := "Could not open " +:+ outPath paths +:+ nl |})
  else
    if ofstream_good (outPath paths)
    then convertOn (PlainFile (outPath paths)) reader options
    else (Exited 1, None,
          {| out := []; err := "";
             cerr := "ERROR: Could not open " +:+ outPath paths +:+ nl |}).

Definition main (parser : ArgumentParser) : Exit * option Destination * Streams :=
  match parseArgs defaultOptions defaultPaths parser with
  | Failed msg => (Aborted msg, None, noOutput)
  | Val (res, options, paths) =>
      if decide (res ≠ PARSE_OK)
      then (Exited (if decide (res = PARSE_ERROR) then 1 else 0), None, noOutput)
      else if decide (inPath paths = "")
      then convertFrom cinReader options paths
      else convertFrom (ifstreamReader (inPath paths)) options paths
  end.

End EntryPoint.

(** ** Auxiliary notions used in the statements *)

(** The guess left by a sequence of [updateQualityFormatGuess] calls on the
    same [QualityFormatGuess] object. *)
Definition updateAll (guess : QualityFormatGuess) (calls : list (list Z)) : QualityFormatGuess :=
  foldl (λ g quals, (updateQualityFormatGuess g quals).1.2) guess calls.

(** A [readRecord] status the guessing loop goes on with. *)
Definition readable (EOF_BEFORE_SUCCESS : Z) (r : ReadOutcome) : Prop :=
  read_res r = 0 ∨ read_res r = EOF_BEFORE_SUCCESS.

(** The value the first loop of [buildConversionTable] stores at [i]. *)
Definition defaultEntry (target : BestGuess) (from i : Z) : Z :=
  match target with
  | SANGER => if i <=? from then 33 else 73
  | SOLEXA => if i <=? from then 59 else 104
  | _ => if i <=? from then 64 else 104
  end.

(** The lowest byte a scale writes: its offset, less 5 for Solexa. *)
Definition lowestByte (target : BestGuess) : Z :=
  match target with
  | SANGER => 33
  | SOLEXA => 59
  | _ => 64
  end.

(** The counter [num] of the writing loops after [k] records, from its value
    [num] at the first of them. *)
Definition numAt (options : FxConvertOptions) (num : Z) (k : nat) : Z :=
  Nat.iter k (nextNum options) num.

(** A [readRecord] status the writing loops go on with. *)
Definition readOk (r : ReadOutcome) : Prop := read_res r = 0.

(** A writer that takes every record. *)
Definition accepting (writeStatus : list OutEvent → OutEvent → Z) : Prop :=
  ∀ written ev, writeStatus written ev = 0.

(** Between two states of the streams, a message was printed on
    [std::cerr]. *)
Definition complaint (s s' : Streams) : Prop :=
  ∃ msg, msg ≠ "" ∧ cerr s' = cerr s +:+ msg.

(** The entries a conversion table may hold: strictly between 0 and 255. *)
Definition validEntry (v : Z) : Prop := 0 < v < 255.

(** A reference <cmath> that is exact on the integral powers of ten and
    answers NaN elsewhere.  It shows that what the theorems below assume of
    [pow] and [log10] can be met. *)
Fixpoint powNat (x : float) (n : nat) : float :=
  match n with
  | O => 1%float
  | S n' => (x * powNat x n')%float
  end.

Definition referenceTrunc (y : float) : Z := double_to_int (λ _, INT_MIN) y.

Definition referencePow (x y : float) : float :=
  let n := referenceTrunc y in
  if (double_of_int n =? y)%float
  then if n <? 0 then (1 / powNat x (Z.to_nat (- n)))%float else powNat x (Z.to_nat n)
  else nan.

Definition referenceLog10 (x : float) : float :=
  match filter (λ n, (referencePow 10 (double_of_int n) =? x)%float = true) (seqZ (-20) 41) with
  | n :: _ => double_of_int n
  | [] => nan
  end.

(** The binary64 number nearest to 10^-4: what a correctly rounded [pow]
    returns for [pow(10.0, -4.0)]. *)
Definition tenToMinus4 : float := 0x1.a36e2eb1c432dp-14%float.

(** The conversion table the reference <cmath> gives, assertions compiled
    out, [char] signed, starting from an array of zeros. *)
Definition referenceTable (source target : BestGuess) : Res (list Z) :=
  buildConversionTable referencePow referenceLog10 (λ _, INT_MIN) false true
    (replicate 256 0) source target.

(** * Properties *)

(** ** Quality guessing *)

Section GuessFacts.

Implicit Types (guess : QualityFormatGuess) (quals : list Z) (c : Z).

(** The validity test of the code cannot hold: no number is both below 33
    and above 104. *)
Lemma validity_test_false c : (c <? 33) && (104 <? c) = false.
Proof. destruct (Z.ltb_spec c 33), (Z.ltb_spec 104 c); simpl; auto; lia. Qed.

Lemma update_cons guess c quals :
  updateQualityFormatGuess guess (c :: quals)
  = updateQualityFormatGuess (narrow guess c) quals.
Proof. simpl. by rewrite validity_test_false. Qed.

Lemma update_app guess quals1 quals2 :
  updateQualityFormatGuess guess (quals1 ++ quals2)
  = updateQualityFormatGuess (updateQualityFormatGuess guess quals1).1.2 quals2.
Proof.
  revert guess. induction quals1 as [|c quals1 IH]; intros guess; [done|].
  rewrite <- app_comm_cons, !update_cons. apply IH.
Qed.

Lemma update_succeeds guess quals :
  (updateQualityFormatGuess guess quals).1.1 = true
  ∧ (updateQualityFormatGuess guess quals).2 = "".
Proof.
  revert guess. induction quals as [|c quals IH]; intros guess; [done|].
  rewrite update_cons. apply IH.
Qed.

Lemma narrow_flags guess c :
  sanger (narrow guess c) = sanger guess && negb (74 <? c)
  ∧ solexa (narrow guess c) = solexa guess && negb (c <? 59)
  ∧ illumina (narrow guess c) = illumina guess && negb (c <? 64).
Proof.
  unfold narrow. destruct guess as [sa so il].
  destruct (74 <? c), (c <? 59), (c <? 64), sa, so, il; done.
Qed.

(** The guess after a call, flag by flag. *)
Lemma update_flags guess quals :
  let guess' := (updateQualityFormatGuess guess quals).1.2 in
  sanger guess' = sanger guess && forallb (λ c, negb (74 <? c)) quals
  ∧ solexa guess' = solexa guess && forallb (λ c, negb (c <? 59)) quals
  ∧ illumina guess' = illumina guess && forallb (λ c, negb (c <? 64)) quals.
Proof.
  revert guess. induction quals as [|c quals IH]; intros guess; simpl.
  - by rewrite !andb_true_r.
  - rewrite validity_test_false.
    destruct (IH (narrow guess c)) as (-> & -> & ->).
    destruct (narrow_flags guess c) as (-> & -> & ->).
    by rewrite !andb_assoc.
Qed.

Lemma forallb_same_elements (f : Z → bool) quals1 quals2 :
  (∀ c, c ∈ quals1 ↔ c ∈ quals2) → forallb f quals1 = forallb f quals2.
Proof.
  intros Hsame. apply eq_true_iff_eq.
  rewrite !forallb_forall. setoid_rewrite <- list_elem_of_In.
  split; intros H c Hc; apply H, Hsame, Hc.
Qed.

Lemma guess_eq guess1 guess2 :
  sanger guess1 = sanger guess2 → solexa guess1 = solexa guess2 →
  illumina guess1 = illumina guess2 → guess1 = guess2.
Proof. destruct guess1, guess2; simpl; congruence. Qed.

Lemma possible_update guess quals e :
  possible guess e = false →
  possible (updateQualityFormatGuess guess quals).1.2 e = false.
Proof.
  destruct (update_flags guess quals) as (Hsa & Hso & Hil).
  destruct e; simpl; [done| | |]; intros H.
  - by rewrite Hsa, H.
  - by rewrite Hso, H.
  - by rewrite Hil, H.
Qed.

End GuessFacts.

(** C1 (as the code behaves).  [updateQualityFormatGuess] never reports an
    invalid quality: for every guess and every quality string, whatever its
    bytes, the call returns [true] and prints nothing.  In particular the
    quality strings made of the single byte 10, and of the single byte 105,
    are accepted, where the specification asks for a failure. *)
Theorem update_never_rejects :
  (∀ guess quals,
      (updateQualityFormatGuess guess quals).1.1 = true
      ∧ (updateQualityFormatGuess guess quals).2 = "")
  ∧ updateQualityFormatGuess newQualityFormatGuess [10]
    = (true, {| sanger := true; solexa := false; illumina := false |}, "")
  ∧ updateQualityFormatGuess newQualityFormatGuess [105]
    = (true, {| sanger := false; solexa := true; illumina := true |}, "").
Proof. split; [apply update_succeeds | split; reflexivity]. Qed.

(** C3.  A call of [updateQualityFormatGuess] on a byte [c] of the band
    [33, 104] returns [true], prints nothing, and leaves a guess in which
    [sanger] is cleared iff [c > 74], [solexa] iff [c < 59] and [illumina] iff
    [c < 64], a flag that is not cleared keeping the value it had; that guess
    is what the three narrowing assignments give, and a longer quality string
    that starts with [c] is processed from it. *)
Theorem narrowing_exact guess c rest :
  33 ≤ c ≤ 104 →
  updateQualityFormatGuess guess [c] = (true, narrow guess c, "")
  ∧ sanger (updateQualityFormatGuess guess [c]).1.2
    = (if decide (c > 74) then false else sanger guess)
  ∧ solexa (updateQualityFormatGuess guess [c]).1.2
    = (if decide (c < 59) then false else solexa guess)
  ∧ illumina (updateQualityFormatGuess guess [c]).1.2
    = (if decide (c < 64) then false else illumina guess)
  ∧ updateQualityFormatGuess guess (c :: rest)
    = updateQualityFormatGuess (updateQualityFormatGuess guess [c]).1.2 rest.
Proof.
  intros _.
  assert (Hone : updateQualityFormatGuess guess [c] = (true, narrow guess c, ""))
    by (by rewrite update_cons).
  split; [exact Hone|]. rewrite Hone. simpl.
  destruct (narrow_flags guess c) as (Hsa & Hso & Hil).
  split; [|split; [|split]].
  - rewrite Hsa. case_decide; destruct (Z.ltb_spec 74 c); try lia; simpl;
      by rewrite ?andb_true_r, ?andb_false_r.
  - rewrite Hso. case_decide; destruct (Z.ltb_spec c 59); try lia; simpl;
      by rewrite ?andb_true_r, ?andb_false_r.
  - rewrite Hil. case_decide; destruct (Z.ltb_spec c 64); try lia; simpl;
      by rewrite ?andb_true_r, ?andb_false_r.
  - apply update_cons.
Qed.

Lemma narrowing_exact_witness :
  updateQualityFormatGuess newQualityFormatGuess [60]
  = (true, {| sanger := true; solexa := true; illumina := false |}, "")
  ∧ updateQualityFormatGuess {| sanger := true; solexa := false; illumina := true |} [80]
    = (true, {| sanger := false; solexa := false; illumina := true |}, "").
Proof.
  split.
  - exact (proj1 (narrowing_exact newQualityFormatGuess 60 [] ltac:(lia))).
  - exact (proj1 (narrowing_exact {| sanger := true; solexa := false; illumina := true |}
                    80 [] ltac:(lia))).
Defined.

(** C5.  Along any sequence of [updateQualityFormatGuess] calls on one guess,
    with arbitrary quality strings, a flag that is false stays false: no call
    sets a flag back to true. *)
Theorem flags_never_reset guess calls e :
  possible guess e = false → possible (updateAll guess calls) e = false.
Proof.
  revert guess. induction calls as [|quals calls IH]; intros guess H; [done|].
  simpl. apply IH. by apply possible_update.
Qed.

Lemma flags_never_reset_witness :
  possible (updateAll {| sanger := true; solexa := false; illumina := true |}
              [[70; 80]; [33]; [104]]) SOLEXA = false.
Proof.
  apply (flags_never_reset {| sanger := true; solexa := false; illumina := true |}
           [[70; 80]; [33]; [104]] SOLEXA).
  reflexivity.
Defined.

(** C10.  [updateQualityFormatGuess] is compositional and insensitive to
    order: a call on the concatenation of two quality strings leaves the
    guess that the call on the first followed by the call on the second
    leaves, and two quality strings in which the same byte values occur,
    whatever their order and multiplicity, leave the same guess. *)
Theorem update_compositional guess :
  (∀ a b,
      (updateQualityFormatGuess guess (a ++ b)).1.2
      = (updateQualityFormatGuess (updateQualityFormatGuess guess a).1.2 b).1.2)
  ∧ (∀ a b,
      (∀ c, c ∈ a ↔ c ∈ b) →
      (updateQualityFormatGuess guess a).1.2 = (updateQualityFormatGuess guess b).1.2).
Proof.
  split.
  - intros a b. by rewrite update_app.
  - intros a b Hsame.
    destruct (update_flags guess a) as (Ha1 & Ha2 & Ha3).
    destruct (update_flags guess b) as (Hb1 & Hb2 & Hb3).
    apply guess_eq.
    + rewrite Ha1, Hb1. f_equal. by apply forallb_same_elements.
    + rewrite Ha2, Hb2. f_equal. by apply forallb_same_elements.
    + rewrite Ha3, Hb3. f_equal. by apply forallb_same_elements.
Qed.

Lemma update_compositional_witness :
  (updateQualityFormatGuess newQualityFormatGuess [70; 35; 70]).1.2
  = (updateQualityFormatGuess newQualityFormatGuess [35; 70]).1.2.
Proof.
  apply (proj2 (update_compositional newQualityFormatGuess) [70; 35; 70] [35; 70]).
  intros c. rewrite !elem_of_cons, !elem_of_nil. tauto.
Defined.

(** ** Loops *)

Section LoopFacts.

Context {State : Type} (body : Z → State → Res State).

(** Partial correctness: an invariant kept by every successful iteration
    holds when the loop ends. *)
Lemma for_loop_inv (I : Z → State → Prop) n : ∀ i s s',
  I i s →
  (∀ j t t', i ≤ j < i + Z.of_nat n → I j t → body j t = Val t' → I (j + 1) t') →
  for_loop n i body s = Val s' → I (i + Z.of_nat n) s'.
Proof.
  induction n as [|n IH]; intros i s s' Hi Hstep; simpl.
  - intros [= <-]. by replace (i + Z.of_nat 0) with i by lia.
  - destruct (body i s) as [t|msg] eqn:Hb; [|done]. intros Hloop.
    replace (i + Z.of_nat (S n)) with ((i + 1) + Z.of_nat n) by lia.
    apply (IH (i + 1) t s'); [| |done].
    + apply (Hstep i s t); [lia|done..].
    + intros j u u' Hj. apply Hstep. lia.
Qed.

(** Total correctness: when every iteration succeeds from a state of the
    invariant, the loop ends. *)
Lemma for_loop_total (I : Z → State → Prop) n : ∀ i s,
  I i s →
  (∀ j t, i ≤ j < i + Z.of_nat n → I j t → ∃ t', body j t = Val t' ∧ I (j + 1) t') →
  ∃ s', for_loop n i body s = Val s' ∧ I (i + Z.of_nat n) s'.
Proof.
  induction n as [|n IH]; intros i s Hi Hstep; simpl.
  - exists s. split; [done|]. by replace (i + Z.of_nat 0) with i by lia.
  - destruct (Hstep i s) as (t & -> & Ht); [lia|done|].
    replace (i + Z.of_nat (S n)) with ((i + 1) + Z.of_nat n) by lia.
    apply IH; [done|]. intros j u Hj. apply Hstep. lia.
Qed.

(** A failure of the loop is the failure of one of its iterations. *)
Lemma for_loop_failed (P : string → Prop) n : ∀ i s msg,
  (∀ j t m, i ≤ j < i + Z.of_nat n → body j t = Failed m → P m) →
  for_loop n i body s = Failed msg → P msg.
Proof.
  induction n as [|n IH]; intros i s msg Hstep; simpl; [done|].
  destruct (body i s) as [t|m] eqn:Hb.
  - apply IH. intros j u m' Hj. apply Hstep. lia.
  - intros [= <-]. apply (Hstep i s); [lia|done].
Qed.

End LoopFacts.

(** ** The conversion table *)

Section TableFacts.

Context (pow : float → float → float) (log10 : float → float)
        (undefined : float → Z) (debug signed : bool).


(** The clamps keep every computed quality within [33, 126]. *)
Lemma targetQuality_range target p : 33 ≤ targetQuality log10 undefined target p ≤ 126.
Proof.
  unfold targetQuality.
  destruct target;
    match goal with |- context [double_to_int ?u ?x] => generalize (double_to_int u x) end;
    intros q;
    repeat match goal with
           | |- context [?a <? ?b] => destruct (Z.ltb_spec a b)
           end; lia.
Qed.

(** Towards Illumina the computed quality takes two values only. *)
Lemma targetQuality_illumina p :
  targetQuality log10 undefined ILLUMINA p = 64 ∨ targetQuality log10 undefined ILLUMINA p = 126.
Proof.
  unfold targetQuality.
  generalize (double_to_int undefined (- 10 * log10 p)%float). intros q.
  repeat match goal with
         | |- context [?a <? ?b] => destruct (Z.ltb_spec a b)
         end; lia.
Qed.

Lemma static_cast_char_small q : 0 ≤ q < 128 → static_cast_char signed q = q.
Proof.
  intros Hq. unfold static_cast_char. destruct signed.
  - rewrite Z.mod_small; lia.
  - apply Z.mod_small. lia.
Qed.

(** The assertions on [q] hold, so the second loop's body depends on the
    assertions on [p] alone. *)
Lemma convertEntry_cases source target i :
  convertEntry pow log10 undefined debug signed source target i
  = let p := errorProbability pow source i in
    if debug && negb (0 <=? p)%float then Failed "SEQAN_ASSERT_GEQ(p, 0.0)"
    else if debug && negb (p <=? 1)%float then Failed "SEQAN_ASSERT_LEQ(p, 1.0)"
    else Val (targetQuality log10 undefined target p).
Proof.
  unfold convertEntry, SEQAN_ASSERT. cbv zeta.
  set (p := errorProbability pow source i).
  pose proof (targetQuality_range target p) as Hq.
  destruct (debug && negb (0 <=? p)%float); [done|].
  destruct (debug && negb (p <=? 1)%float); [done|].
  assert ((0 <? targetQuality log10 undefined target p) = true) as -> by (apply Z.ltb_lt; lia).
  assert ((targetQuality log10 undefined target p <? 255) = true) as -> by (apply Z.ltb_lt; lia).
  rewrite !andb_false_r. by rewrite static_cast_char_small by lia.
Qed.

Lemma convertEntry_valid source target i q :
  convertEntry pow log10 undefined debug signed source target i = Val q → validEntry q.
Proof.
  rewrite convertEntry_cases. cbv zeta.
  pose proof (targetQuality_range target (errorProbability pow source i)).
  repeat case_match; intros [= <-]. unfold validEntry. lia.
Qed.

Lemma initEntry_store target from i table :
  target ≠ NONE →
  ∃ v, initEntry target from i table = Val (store i v table) ∧ validEntry v.
Proof.
  unfold validEntry. intros Ht.
  destruct target; [done|..]; simpl; destruct (i <=? from); eexists; (split; [done|lia]).
Qed.

(** The first loop writes all 256 entries of the array. *)
Lemma init_loop table target from :
  length table = 256%nat → target ≠ NONE →
  ∃ table1, for_loop 256 0 (initEntry target from) table = Val table1
            ∧ length table1 = 256%nat ∧ Forall validEntry table1.
Proof.
  intros Hlen Ht.
  destruct (for_loop_total (initEntry target from)
              (λ j t, length t = 256%nat
                      ∧ ∀ (k : nat) x, Z.of_nat k < j → t !! k = Some x → validEntry x)
              256 0 table) as (table1 & Hloop & Hlen1 & Hall).
  - split; [done|]. intros k x Hk. lia.
  - intros j t Hj [Hl Hinv].
    destruct (initEntry_store target from j t Ht) as (v & -> & Hv).
    eexists. split; [done|]. unfold store. split; [by rewrite length_insert|].
    intros k x Hk. destruct (decide (Z.to_nat j = k)) as [<-|Hne].
    + rewrite list_lookup_insert_eq by lia. by intros [= <-].
    + rewrite list_lookup_insert_ne by done. apply Hinv. lia.
  - exists table1. split; [done|]. split; [done|].
    apply Forall_lookup_2. intros k x Hx. apply (Hall k x); [|done].
    apply lookup_lt_Some in Hx. lia.
Qed.

Lemma sourceRange_concrete source :
  source ≠ NONE →
  ∃ from, sourceRange source = Val (from, 126)
          ∧ (from = 33 ∨ from = 59 ∨ from = 64).
Proof. destruct source; [done|..]; eexists; (split; [done|lia]). Qed.

Lemma convertBody_inv source target j t t' :
  length t = 256%nat ∧ Forall validEntry t →
  convertBody pow log10 undefined debug signed source target j t = Val t' →
  length t' = 256%nat ∧ Forall validEntry t'.
Proof.
  intros [Hl Hall]. unfold convertBody.
  destruct (convertEntry pow log10 undefined debug signed source target j) as [q|] eqn:Hq; [|done].
  intros [= <-]. unfold store. split; [by rewrite length_insert|].
  apply Forall_insert; [done|]. by apply convertEntry_valid in Hq.
Qed.

(** Every completed build leaves 256 valid entries. *)
Lemma build_valid table source target tbl :
  length table = 256%nat → source ≠ NONE → target ≠ NONE →
  buildConversionTable pow log10 undefined debug signed table source target = Val tbl →
  length tbl = 256%nat ∧ Forall validEntry tbl.
Proof.
  intros Hlen Hs Ht. unfold buildConversionTable.
  destruct (sourceRange_concrete source Hs) as (from & -> & Hfrom).
  destruct (init_loop table target from Hlen Ht) as (t1 & -> & Hl1 & Hall1).
  intros Hloop.
  apply (for_loop_inv (convertBody pow log10 undefined debug signed source target)
           (λ _ t, length t = 256%nat ∧ Forall validEntry t) _ _ _ _
           (conj Hl1 Hall1)) in Hloop; [done|].
  intros j t t' _. apply convertBody_inv.
Qed.

(** The build completes when the assertions are compiled out, and when
    every error probability passes its two assertions. *)
Lemma build_completes table source target :
  length table = 256%nat → source ≠ NONE → target ≠ NONE →
  debug = false
  ∨ (∀ i, 33 ≤ i ≤ 126 →
          (0 <=? errorProbability pow source i)%float = true
          ∧ (errorProbability pow source i <=? 1)%float = true) →
  ∃ tbl, buildConversionTable pow log10 undefined debug signed table source target = Val tbl.
Proof.
  intros Hlen Hs Ht Hok. unfold buildConversionTable.
  destruct (sourceRange_concrete source Hs) as (from & -> & Hfrom).
  destruct (init_loop table target from Hlen Ht) as (t1 & -> & _ & _).
  destruct (for_loop_total (convertBody pow log10 undefined debug signed source target) (λ _ _, True)
              (Z.to_nat (126 + 1 - from)) from t1 I) as (tbl & Hloop & _);
    [|by exists tbl].
  intros j t Hj _. unfold convertBody. rewrite convertEntry_cases. cbv zeta.
  destruct Hok as [->|Hp]; [by eexists|].
  destruct (Hp j) as [-> ->]; [lia|]. rewrite !andb_false_r. by eexists.
Qed.

(** The build can only be stopped by an assertion on an error probability. *)
Lemma build_failure table source target msg :
  length table = 256%nat → source ≠ NONE → target ≠ NONE →
  buildConversionTable pow log10 undefined debug signed table source target = Failed msg →
  debug = true
  ∧ (msg = "SEQAN_ASSERT_GEQ(p, 0.0)" ∨ msg = "SEQAN_ASSERT_LEQ(p, 1.0)").
Proof.
  intros Hlen Hs Ht. unfold buildConversionTable.
  destruct (sourceRange_concrete source Hs) as (from & -> & Hfrom).
  destruct (init_loop table target from Hlen Ht) as (t1 & -> & _ & _).
  intros Hloop.
  apply (for_loop_failed (convertBody pow log10 undefined debug signed source target)
           (λ m, debug = true
                 ∧ (m = "SEQAN_ASSERT_GEQ(p, 0.0)" ∨ m = "SEQAN_ASSERT_LEQ(p, 1.0)")))
    in Hloop; [done|].
  intros j t m _.
  unfold convertBody. rewrite convertEntry_cases. cbv zeta.
  destruct debug; simpl; [|done].
  repeat case_match; intros; simplify_eq; auto.
Qed.

End TableFacts.

(** C6.  For every pair of concrete source and target scales and an array of
    256 entries: the build completes when assertions are compiled out, and
    also with assertions when every error probability passes its two
    assertions; a completed build defines, for every byte value 0 to 255, an
    entry that lies strictly between 0 and 255; and nothing but an assertion
    on an error probability can stop the build (the assertions on [q] never
    fail). *)
Theorem conversion_table_total pow log10 undefined debug signed table source target :
  length table = 256%nat → source ≠ NONE → target ≠ NONE →
  (debug = false
   ∨ (∀ i, 33 ≤ i ≤ 126 →
           (0 <=? errorProbability pow source i)%float = true
           ∧ (errorProbability pow source i <=? 1)%float = true) →
   ∃ tbl, buildConversionTable pow log10 undefined debug signed table source target = Val tbl)
  ∧ (∀ tbl,
       buildConversionTable pow log10 undefined debug signed table source target = Val tbl →
       ∀ b, 0 ≤ b ≤ 255 → ∃ v, tbl !! Z.to_nat b = Some v ∧ 0 < v < 255)
  ∧ (∀ msg,
       buildConversionTable pow log10 undefined debug signed table source target = Failed msg →
       debug = true
       ∧ (msg = "SEQAN_ASSERT_GEQ(p, 0.0)" ∨ msg = "SEQAN_ASSERT_LEQ(p, 1.0)")).
Proof.
  intros Hlen Hs Ht. split; [|split].
  - by apply build_completes.
  - intros tbl Hbuild b Hb.
    destruct (build_valid _ _ _ _ _ _ _ _ _ Hlen Hs Ht Hbuild) as [Hl Hall].
    destruct (lookup_lt_is_Some_2 tbl (Z.to_nat b)) as [v Hv]; [lia|].
    exists v. split; [done|]. by apply (Forall_lookup_1 _ _ _ _ Hall Hv).
  - intros msg. by apply build_failure.
Qed.

Lemma conversion_table_total_witness :
  ∃ tbl, referenceTable SANGER SOLEXA = Val tbl
         ∧ ∀ b, 0 ≤ b ≤ 255 → ∃ v, tbl !! Z.to_nat b = Some v ∧ 0 < v < 255.
Proof.
  destruct (conversion_table_total referencePow referenceLog10 (λ _, INT_MIN) false true
              (replicate 256 0) SANGER SOLEXA) as (Hcompletes & Hvalid & _);
    [reflexivity | discriminate | discriminate |].
  destruct (Hcompletes (or_introl eq_refl)) as [tbl Hbuild].
  exists tbl. split; [exact Hbuild | exact (Hvalid tbl Hbuild)].
Defined.

(** C7.  On a platform whose [pow] and [log10] are exact at this point
    ([pow(10.0, -4.0)] is the binary64 number nearest to 10^-4 and [log10] of
    it is -4), the build from Sanger to Sanger maps byte 73 to itself: the
    error probability is [pow(10.0, -4.0)], the quality is 40, within the
    clamp, and 40 + 33 = 73 is what entry 73 of every completed build holds;
    with assertions compiled out the build does complete. *)
Theorem sanger_to_sanger_73 pow log10 undefined debug signed table :
  pow 10%float (-4)%float = tenToMinus4 →
  log10 tenToMinus4 = (-4)%float →
  length table = 256%nat →
  errorProbability pow SANGER 73 = tenToMinus4
  ∧ double_to_int undefined (- 10 * log10 tenToMinus4)%float = 40
  ∧ targetQuality log10 undefined SANGER tenToMinus4 = 73
  ∧ (∀ tbl,
       buildConversionTable pow log10 undefined debug signed table SANGER SANGER = Val tbl →
       tbl !! 73%nat = Some 73)
  ∧ (debug = false →
     ∃ tbl,
       buildConversionTable pow log10 undefined debug signed table SANGER SANGER = Val tbl
       ∧ tbl !! 73%nat = Some 73).
Proof.
  intros Hpow Hlog Hlen.
  assert (Hp : errorProbability pow SANGER 73 = tenToMinus4).
  { unfold errorProbability.
    change (double_of_int (73 - 33) / - 10)%float with (-4)%float. exact Hpow. }
  assert (Hq : double_to_int undefined (- 10 * log10 tenToMinus4)%float = 40).
  { rewrite Hlog. reflexivity. }
  assert (Ht : targetQuality log10 undefined SANGER tenToMinus4 = 73).
  { unfold targetQuality. rewrite Hq. reflexivity. }
  assert (Hentry73 : ∀ tbl,
             buildConversionTable pow log10 undefined debug signed table SANGER SANGER
             = Val tbl →
             tbl !! 73%nat = Some 73).
  { intros tbl Hbuild.
    unfold buildConversionTable in Hbuild. simpl sourceRange in Hbuild.
    cbv iota beta in Hbuild.
    destruct (init_loop table SANGER 33 Hlen) as (t1 & Hinit & Hl1 & _); [done|].
    rewrite Hinit in Hbuild.
    apply (for_loop_inv _ (λ j t, length t = 256%nat ∧ (73 < j → t !! 73%nat = Some 73)))
      in Hbuild.
    - apply Hbuild. lia.
    - split; [done|lia].
    - intros j t t' Hj [Hl Hinv]. unfold convertBody.
      destruct (convertEntry _ _ _ _ _ _ _ j) as [q|] eqn:Hentry; [|done].
      intros [= <-]. unfold store. split; [by rewrite length_insert|]. intros Hj'.
      destruct (decide (j = 73)) as [->|Hne].
      + rewrite convertEntry_cases in Hentry. cbv zeta in Hentry.
        rewrite Hp, Ht in Hentry. repeat case_match; simplify_eq.
        apply list_lookup_insert_eq. lia.
      + rewrite list_lookup_insert_ne by lia. apply Hinv. lia. }
  repeat split; [done..|].
  intros Hrelease.
  destruct (build_completes pow log10 undefined debug signed table SANGER SANGER)
    as [tbl Hbuild]; [done..|by left|].
  exists tbl. split; [done|]. by apply Hentry73.
Qed.

Lemma sanger_to_sanger_73_witness :
  ∃ tbl, referenceTable SANGER SANGER = Val tbl ∧ tbl !! 73%nat = Some 73.
Proof.
  destruct (sanger_to_sanger_73 referencePow referenceLog10 (λ _, INT_MIN) false true
              (replicate 256 0)) as (_ & _ & _ & _ & Hrelease);
    [vm_compute; reflexivity | vm_compute; reflexivity | reflexivity |].
  exact (Hrelease eq_refl).
Defined.

(** C2 (as the code behaves).  Towards Illumina the second loop stores one of
    two values, 64 or 126, whatever the source scale, the byte and the
    platform's [pow] and [log10]: the two tests that should clamp [q] to
    [0, 62] replace every nonzero [q] by 62.  With the reference <cmath> the
    table from Illumina to Illumina maps byte 74, of quality 10, to 126,
    where the specification asks for 10 + 64 = 74. *)
Theorem illumina_target_two_values pow log10 undefined debug signed :
  (∀ source i,
      match convertEntry pow log10 undefined debug signed source ILLUMINA i with
      | Val q => q = 64 ∨ q = 126
      | Failed _ => True
      end)
  ∧ (∃ tbl, referenceTable ILLUMINA ILLUMINA = Val tbl ∧ tbl !! 74%nat = Some 126).
Proof.
  split.
  - intros source i. rewrite convertEntry_cases. cbv zeta.
    repeat case_match; simplify_eq; try done. apply targetQuality_illumina.
  - vm_compute. eexists. split; reflexivity.
Qed.

(** ** The driver *)

Lemma append_empty_r (s : string) : s +:+ "" = s.
Proof.
  induction s as [|a s IH]; [done|].
  change (String a (s +:+ "") = String a s). by rewrite IH.
Qed.

Lemma putCerr_empty (s : Streams) : putCerr "" s = (Next tt, s).
Proof. destruct s as [o e c]. unfold putCerr. simpl. by rewrite append_empty_r. Qed.

Lemma length_convertQualities table qual :
  length (convertQualities table qual) = length qual.
Proof. induction qual as [|c qual IH]; simpl; [done|]. by rewrite IH. Qed.

Lemma lookup_convertQualities table qual (j : nat) c :
  qual !! j = Some c →
  convertQualities table qual !! j = Some (table !!! Z.to_nat (static_cast_uint8 c)).
Proof.
  revert j. induction qual as [|c' qual IH]; intros j; [done|].
  destruct j as [|j]; simpl.
  - by intros [= ->].
  - apply IH.
Qed.

Section DriverFacts.

Context (EOF_BEFORE_SUCCESS : Z).

(** A guessing loop that goes on leaves the streams as they were, and goes on
    alike from any other streams. *)
Lemma guessLoop_next rs : ∀ guess s guess' s',
  guessLoop EOF_BEFORE_SUCCESS guess rs s = (Next guess', s') →
  s' = s ∧ ∀ t, guessLoop EOF_BEFORE_SUCCESS guess rs t = (Next guess', t).
Proof.
  induction rs as [|r rs IH]; intros guess s guess' s'; simpl.
  - intros [= <- <-]. done.
  - destruct (negb (read_res r =? 0) && negb (read_res r =? EOF_BEFORE_SUCCESS)); [done|].
    destruct (update_succeeds guess (rec_qual r)) as [Hok Hmsg].
    destruct (updateQualityFormatGuess guess (rec_qual r)) as [[ok g] msg].
    simpl in Hok, Hmsg. subst ok msg. simpl.
    unfold mbind, M_bind. rewrite putCerr_empty. intros Hloop.
    destruct (IH _ _ _ _ Hloop) as [-> Hany]. split; [done|].
    intros t. rewrite putCerr_empty. apply Hany.
Qed.

Lemma finalizeGuess_next guess s e s' :
  finalizeGuess guess s = (Next e, s') →
  s' = s ∧ e ≠ NONE ∧ e = bestGuess guess ∧ ∀ t, finalizeGuess guess t = (Next e, t).
Proof.
  destruct guess as [[|] [|] [|]]; vm_compute; intros H; simplify_eq; done.
Qed.

Lemma sourceGuess_next options reader s e s' :
  sourceGuess EOF_BEFORE_SUCCESS options reader s = (Next e, s') →
  s' = s ∧ e ≠ NONE
  ∧ ∀ t, sourceGuess EOF_BEFORE_SUCCESS options reader t = (Next e, t).
Proof.
  unfold sourceGuess. destruct (sourceFormat options); try (intros [= <- <-]; done).
  - unfold mbind, M_bind.
    destruct (guessLoop _ _ _ s) as [[guess| |] s1] eqn:Hloop; [|done..].
    apply guessLoop_next in Hloop as [-> Hany]. intros Hfin.
    apply finalizeGuess_next in Hfin as (-> & Hne & _ & Hany').
    split; [done|]. split; [done|]. intros t. by rewrite Hany.
Qed.

End DriverFacts.

(** C4.  After the updates, the guess is turned into a scale exactly when
    exactly one of the three flags is true, and the scale is the one whose
    flag is true; when no flag or several flags are true, the run returns 1
    after naming on [std::cerr], behind the error line, exactly the scales
    whose flag is true. *)
Theorem finalize_exactly_one guess s :
  (int_of_bool (sanger guess) + int_of_bool (solexa guess) + int_of_bool (illumina guess) = 1
   ↔ ∃ e, finalizeGuess guess s = (Next e, s))
  ∧ (∀ e s', finalizeGuess guess s = (Next e, s') →
             e ≠ NONE ∧ possible guess e = true ∧ candidates guess = [e] ∧ s' = s)
  ∧ (int_of_bool (sanger guess) + int_of_bool (solexa guess) + int_of_bool (illumina guess) ≠ 1 →
     finalizeGuess guess s
     = (Return 1,
        {| out := out s; err := err s;
           cerr := foldl (λ text e, text +:+ couldBe e)
                     (cerr s +:+ ambiguousHeader) (candidates guess) |}))
  ∧ (∀ e, e ∈ candidates guess ↔ e ≠ NONE ∧ possible guess e = true).
Proof.
  split; [|split; [|split]].
  - destruct guess as [[|] [|] [|]]; simpl; split;
      try (intros H; discriminate H);
      try (intros _; eexists; reflexivity);
      try (intros [e H]; vm_compute in H; discriminate H);
      try done.
  - intros e s' H. destruct guess as [[|] [|] [|]]; vm_compute in H; simplify_eq; done.
  - destruct s as [o e c].
    destruct guess as [[|] [|] [|]]; simpl; intros H;
      first [reflexivity | exfalso; apply H; reflexivity].
  - intros e. unfold candidates. rewrite list_elem_of_filter.
    destruct e; simpl; rewrite ?elem_of_cons, elem_of_nil;
      intuition (try discriminate; try congruence; auto).
Qed.

Lemma finalize_exactly_one_witness :
  finalizeGuess {| sanger := false; solexa := true; illumina := false |} noOutput
  = (Next SOLEXA, noOutput)
  ∧ candidates {| sanger := false; solexa := true; illumina := false |} = [SOLEXA].
Proof.
  destruct (finalize_exactly_one {| sanger := false; solexa := true; illumina := false |}
              noOutput) as (Hiff & Hnext & _).
  destruct (proj1 Hiff eq_refl) as [e He].
  destruct (Hnext e noOutput He) as (_ & Hpossible & Hcandidates & _).
  destruct e; try discriminate Hpossible.
  split; [exact He | exact Hcandidates].
Defined.

(** C8.  A record read by the FASTQ loop with a FASTQ target is handed to the
    writer with its sequence and a quality string that is the record's own
    when source and target scale are equal, and otherwise has the same length
    and holds, at every position, the table entry of the byte read there; when
    the writer accepts it, it is appended to the output and the loop goes on. *)
Theorem quality_rewrite writeStatus options formatGuess outFormat table num r rs s :
  outFormat ≠ NONE →
  ∃ qual,
    outputRecord options formatGuess outFormat table num r
    = WriteFastq (renamed options num (rec_id r)) (rec_seq r) qual
    ∧ (formatGuess = outFormat → qual = rec_qual r)
    ∧ (formatGuess ≠ outFormat →
       length qual = length (rec_qual r)
       ∧ ∀ (j : nat) c, rec_qual r !! j = Some c →
                        qual !! j = Some (table !!! Z.to_nat (static_cast_uint8 c)))
    ∧ (read_res r = 0 →
       writeStatus (out s) (WriteFastq (renamed options num (rec_id r)) (rec_seq r) qual) = 0 →
       fastqLoop writeStatus options formatGuess outFormat table num (r :: rs) s
       = fastqLoop writeStatus options formatGuess outFormat table (nextNum options num) rs
           {| out := out s ++ [WriteFastq (renamed options num (rec_id r)) (rec_seq r) qual];
              err := err s; cerr := cerr s |}).
Proof.
  intros Hout.
  exists (if decide (formatGuess ≠ outFormat)
          then convertQualities table (rec_qual r) else rec_qual r).
  assert (Hev : outputRecord options formatGuess outFormat table num r
                = WriteFastq (renamed options num (rec_id r)) (rec_seq r)
                    (if decide (formatGuess ≠ outFormat)
                     then convertQualities table (rec_qual r) else rec_qual r)).
  { unfold outputRecord. by destruct outFormat. }
  split; [exact Hev|]. split; [|split].
  - intros Heq. by rewrite decide_False by (intros Hne; by apply Hne).
  - intros Hne. rewrite decide_True by done.
    split; [apply length_convertQualities|]. intros j c. apply lookup_convertQualities.
  - intros Hread Hwrite. simpl. rewrite Hread. simpl.
    unfold mbind, M_bind, writeRecord. rewrite Hev, Hwrite. simpl. done.
Qed.

Lemma quality_rewrite_witness :
  ∃ qual,
    outputRecord
      {| renameToNumbers := false; keepNs := false; verbosity := 0; gzip := false;
         guessFormat := false; sourceFormat := FASTQ_SANGER; targetFormat := FASTQ_SOLEXA |}
      SANGER SOLEXA (seqZ 100 256) 1
      {| read_res := 0; rec_id := "r1"; rec_seq := [DnaA; DnaC]; rec_qual := [40; 73] |}
    = WriteFastq "r1" [DnaA; DnaC] qual
    ∧ length qual = 2%nat
    ∧ qual !! 1%nat = Some 173.
Proof.
  destruct (quality_rewrite (λ _ _, 0)
              {| renameToNumbers := false; keepNs := false; verbosity := 0; gzip := false;
                 guessFormat := false; sourceFormat := FASTQ_SANGER;
                 targetFormat := FASTQ_SOLEXA |}
              SANGER SOLEXA (seqZ 100 256) 1
              {| read_res := 0; rec_id := "r1"; rec_seq := [DnaA; DnaC]; rec_qual := [40; 73] |}
              [] noOutput) as (qual & Hev & _ & Hremap & _); [discriminate|].
  exists qual. split; [exact Hev|].
  destruct Hremap as [Hlen Hlookup]; [discriminate|].
  split; [exact Hlen | exact (Hlookup 1%nat 73 eq_refl)].
Defined.

(** C9.  On a FASTQ input whose source scale is determined (guessed without
    ambiguity, or given by the options), a run that only guesses puts on its
    output the text [content-type: ], the name [text/x-fastq-<scale>] of that
    scale and a line feed, and nothing else, writes no record, prints nothing
    on [std::cerr], and returns 0.  (With verbosity 2 the stream [err] holds
    the notice of the file format.) *)
Theorem guess_only_reports pow log10 undefined debug signed EOF_BEFORE_SUCCESS writeStatus
    uninitialized options reader formatGuess s1 :
  checkStreamFormat reader = Some 2 →
  guessFormat options = true →
  sourceGuess EOF_BEFORE_SUCCESS options reader noOutput = (Next formatGuess, s1) →
  runConvert pow log10 undefined debug signed EOF_BEFORE_SUCCESS writeStatus uninitialized
    options reader noOutput
  = (Return 0,
     {| out := [Put "content-type: "; Put (formatName formatGuess); Put nl];
        err := if 2 <=? verbosity options then "File format is FASTQ." +:+ nl else "";
        cerr := "" |})
  ∧ ((formatGuess = SANGER ∧ formatName formatGuess = "text/x-fastq-sanger")
     ∨ (formatGuess = SOLEXA ∧ formatName formatGuess = "text/x-fastq-solexa")
     ∨ (formatGuess = ILLUMINA ∧ formatName formatGuess = "text/x-fastq-illumina")).
Proof.
  intros Hfmt Hguess Hsource.
  apply sourceGuess_next in Hsource as (_ & Hne & Hany).
  split; [|destruct formatGuess; [done|auto..]].
  unfold runConvert. rewrite Hfmt. simpl.
  unfold convertFastq, mbind, M_bind.
  destruct (2 <=? verbosity options); simpl; rewrite Hany, Hguess; reflexivity.
Qed.

Lemma guess_only_reports_witness :
  runConvert referencePow referenceLog10 (λ _, INT_MIN) false true 1024 (λ _ _, 0) (λ _, 0)
    {| renameToNumbers := false; keepNs := false; verbosity := 0; gzip := false;
       guessFormat := true; sourceFormat := AUTO; targetFormat := FASTA |}
    {| checkStreamFormat := Some 2;
       limitedReads := [{| read_res := 0; rec_id := "r1"; rec_seq := [DnaA; DnaC];
                           rec_qual := [35; 35] |}];
       reads := [{| read_res := 0; rec_id := "r1"; rec_seq := [DnaA; DnaC];
                    rec_qual := [35; 35] |}] |}
    noOutput
  = (Return 0,
     {| out := [Put "content-type: "; Put "text/x-fastq-sanger"; Put nl];
        err := ""; cerr := "" |}).
Proof.
  apply (guess_only_reports referencePow referenceLog10 (λ _, INT_MIN) false true 1024
           (λ _ _, 0) (λ _, 0)
           {| renameToNumbers := false; keepNs := false; verbosity := 0; gzip := false;
              guessFormat := true; sourceFormat := AUTO; targetFormat := FASTA |}
           {| checkStreamFormat := Some 2;
              limitedReads := [{| read_res := 0; rec_id := "r1"; rec_seq := [DnaA; DnaC];
                                  rec_qual := [35; 35] |}];
              reads := [{| read_res := 0; rec_id := "r1"; rec_seq := [DnaA; DnaC];
                           rec_qual := [35; 35] |}] |}
           SANGER noOutput); reflexivity.
Defined.

(** * Further properties *)

(** ** What the guess comes to *)

Lemma updateAll_concat guess calls :
  updateAll guess calls = (updateQualityFormatGuess guess (concat calls)).1.2.
Proof.
  revert guess. induction calls as [|quals calls IH]; intros guess; [done|].
  simpl. rewrite update_app. apply IH.
Qed.

Lemma forallb_true_iff (f : Z → bool) (l : list Z) :
  forallb f l = true ↔ ∀ c, c ∈ l → f c = true.
Proof. rewrite forallb_forall. by setoid_rewrite list_elem_of_In. Qed.

Lemma forallb_false_iff (f : Z → bool) (l : list Z) :
  forallb f l = false ↔ ∃ c, c ∈ l ∧ f c = false.
Proof.
  induction l as [|a l IH]; simpl.
  - split; [done|]. intros (c & Hc & _). by apply elem_of_nil in Hc.
  - rewrite andb_false_iff, IH. setoid_rewrite elem_of_cons. split.
    + intros [Ha|(c & Hc & Hf)]; [exists a|exists c]; auto.
    + intros (c & [->|Hc] & Hf); [by left|right; by exists c].
Qed.

(** The three flags of a fresh guess after some calls, as tests on the bytes
    seen. *)
Lemma fresh_flags calls :
  let guess := updateAll newQualityFormatGuess calls in
  sanger guess = forallb (λ c, negb (74 <? c)) (concat calls)
  ∧ solexa guess = forallb (λ c, negb (c <? 59)) (concat calls)
  ∧ illumina guess = forallb (λ c, negb (c <? 64)) (concat calls).
Proof.
  cbv zeta. rewrite updateAll_concat.
  destruct (update_flags newQualityFormatGuess (concat calls)) as (-> & -> & ->). done.
Qed.

(** A guess that started fresh allows Solexa whenever it allows Illumina. *)
Lemma illumina_implies_solexa calls :
  illumina (updateAll newQualityFormatGuess calls) = true →
  solexa (updateAll newQualityFormatGuess calls) = true.
Proof.
  destruct (fresh_flags calls) as (_ & -> & ->).
  rewrite !forallb_true_iff. intros H c Hc. specialize (H c Hc).
  destruct (Z.ltb_spec c 64); [done|]. destruct (Z.ltb_spec c 59); [lia|done].
Qed.

Lemma bestGuess_fresh_not_illumina calls :
  bestGuess (updateAll newQualityFormatGuess calls) ≠ ILLUMINA.
Proof.
  pose proof (illumina_implies_solexa calls) as Himp. unfold bestGuess.
  destruct (sanger _), (solexa _), (illumina _); simpl; try done.
  by specialize (Himp eq_refl).
Qed.

(** X1.  The best guess of a fresh guess after any calls is read off the
    bytes seen: it is Sanger exactly when no byte exceeds 74 and some byte is
    below 59; it is Solexa exactly when some byte exceeds 74, none is below 59
    and some byte is below 64; and it is never Illumina. *)
Theorem best_guess_of_bytes calls :
  let guess := updateAll newQualityFormatGuess calls in
  (bestGuess guess = SANGER
   ↔ (∀ c, c ∈ concat calls → c ≤ 74) ∧ (∃ c, c ∈ concat calls ∧ c < 59))
  ∧ (bestGuess guess = SOLEXA
     ↔ (∃ c, c ∈ concat calls ∧ 74 < c) ∧ (∀ c, c ∈ concat calls → 59 ≤ c)
       ∧ (∃ c, c ∈ concat calls ∧ c < 64))
  ∧ bestGuess guess ≠ ILLUMINA.
Proof.
  cbv zeta.
  pose proof (illumina_implies_solexa calls) as Himp.
  destruct (fresh_flags calls) as (Hsa & Hso & Hil).
  assert (Hsa_t : sanger (updateAll newQualityFormatGuess calls) = true
                  ↔ ∀ c, c ∈ concat calls → c ≤ 74).
  { rewrite Hsa, forallb_true_iff.
    setoid_rewrite negb_true_iff. by setoid_rewrite Z.ltb_ge. }
  assert (Hsa_f : sanger (updateAll newQualityFormatGuess calls) = false
                  ↔ ∃ c, c ∈ concat calls ∧ 74 < c).
  { rewrite Hsa, forallb_false_iff.
    setoid_rewrite negb_false_iff. by setoid_rewrite Z.ltb_lt. }
  assert (Hso_t : solexa (updateAll newQualityFormatGuess calls) = true
                  ↔ ∀ c, c ∈ concat calls → 59 ≤ c).
  { rewrite Hso, forallb_true_iff.
    setoid_rewrite negb_true_iff. by setoid_rewrite Z.ltb_ge. }
  assert (Hso_f : solexa (updateAll newQualityFormatGuess calls) = false
                  ↔ ∃ c, c ∈ concat calls ∧ c < 59).
  { rewrite Hso, forallb_false_iff.
    setoid_rewrite negb_false_iff. by setoid_rewrite Z.ltb_lt. }
  assert (Hil_f : illumina (updateAll newQualityFormatGuess calls) = false
                  ↔ ∃ c, c ∈ concat calls ∧ c < 64).
  { rewrite Hil, forallb_false_iff.
    setoid_rewrite negb_false_iff. by setoid_rewrite Z.ltb_lt. }
  rewrite <- Hsa_t, <- Hsa_f, <- Hso_t, <- Hso_f, <- Hil_f.
  clear Hsa Hso Hil Hsa_t Hsa_f Hso_t Hso_f Hil_f.
  unfold bestGuess.
  destruct (sanger _), (solexa _), (illumina _); simpl; intuition congruence.
Qed.

(** ** The guessing loop *)

Section GuessLoopFacts.

Context (EOF_BEFORE_SUCCESS : Z).

Lemma readable_test r :
  negb (read_res r =? 0) && negb (read_res r =? EOF_BEFORE_SUCCESS) = false
  ↔ readable EOF_BEFORE_SUCCESS r.
Proof.
  unfold readable.
  destruct (Z.eqb_spec (read_res r) 0), (Z.eqb_spec (read_res r) EOF_BEFORE_SUCCESS);
    simpl; intuition congruence.
Qed.

Lemma guessLoop_cons_readable guess r rs s :
  readable EOF_BEFORE_SUCCESS r →
  guessLoop EOF_BEFORE_SUCCESS guess (r :: rs) s
  = guessLoop EOF_BEFORE_SUCCESS (updateQualityFormatGuess guess (rec_qual r)).1.2 rs s.
Proof.
  intros Hr. apply readable_test in Hr. simpl. rewrite Hr.
  destruct (update_succeeds guess (rec_qual r)) as [Hok Hmsg].
  destruct (updateQualityFormatGuess guess (rec_qual r)) as [[ok g] msg].
  simpl in Hok, Hmsg. subst ok msg. simpl.
  unfold mbind, M_bind. by rewrite putCerr_empty.
Qed.

End GuessLoopFacts.

Lemma guessLoop_readable EOF_BEFORE_SUCCESS guess rs s :
  Forall (readable EOF_BEFORE_SUCCESS) rs →
  guessLoop EOF_BEFORE_SUCCESS guess rs s = (Next (updateAll guess (rec_qual <$> rs)), s).
Proof.
  intros Hrs. revert guess. induction Hrs as [|r rs Hr _ IH]; intros guess; [done|].
  rewrite guessLoop_cons_readable by done. apply IH.
Qed.

(** X2.  When every [readRecord] of the guessing loop returns 0 or
    EOF_BEFORE_SUCCESS, the loop ends with the guess that the calls of
    [updateQualityFormatGuess] on the quality strings of all the records, in
    order, leave, and writes on no stream. *)
Theorem guessLoop_scans_all EOF_BEFORE_SUCCESS guess rs s :
  Forall (readable EOF_BEFORE_SUCCESS) rs →
  guessLoop EOF_BEFORE_SUCCESS guess rs s = (Next (updateAll guess (rec_qual <$> rs)), s).
Proof. apply guessLoop_readable. Qed.

Lemma guessLoop_scans_all_witness :
  guessLoop 1024 newQualityFormatGuess
    [{| read_res := 0; rec_id := "r1"; rec_seq := [DnaA]; rec_qual := [35] |};
     {| read_res := 1024; rec_id := "r2"; rec_seq := [DnaC]; rec_qual := [80] |}]
    noOutput
  = (Next {| sanger := false; solexa := false; illumina := false |}, noOutput).
Proof.
  apply (guessLoop_scans_all 1024 newQualityFormatGuess
           [{| read_res := 0; rec_id := "r1"; rec_seq := [DnaA]; rec_qual := [35] |};
            {| read_res := 1024; rec_id := "r2"; rec_seq := [DnaC]; rec_qual := [80] |}]
           noOutput).
  constructor; [by left | constructor; [by right | constructor]].
Defined.

(** X3.  The guessing loop stops at the first [readRecord] whose status is
    neither 0 nor EOF_BEFORE_SUCCESS: it prints [Error reading input!] on
    [std::cerr] and makes [runConvert] return 1, whatever follows that record
    and whatever the records before it held. *)
Theorem guessLoop_read_error EOF_BEFORE_SUCCESS guess good bad rest s :
  Forall (readable EOF_BEFORE_SUCCESS) good →
  ¬ readable EOF_BEFORE_SUCCESS bad →
  guessLoop EOF_BEFORE_SUCCESS guess (good ++ bad :: rest) s
  = (Return 1,
     {| out := out s; err := err s; cerr := cerr s +:+ "Error reading input!" +:+ nl |}).
Proof.
  intros Hgood Hbad. revert guess.
  induction Hgood as [|r good Hr _ IH]; intros guess.
  - simpl. rewrite <- readable_test in Hbad.
    destruct (negb (read_res bad =? 0) && negb (read_res bad =? EOF_BEFORE_SUCCESS));
      [done|by destruct Hbad].
  - rewrite <- app_comm_cons, guessLoop_cons_readable by done. apply IH.
Qed.

Lemma guessLoop_read_error_witness :
  guessLoop 1024 newQualityFormatGuess
    ([{| read_res := 0; rec_id := "r1"; rec_seq := [DnaA]; rec_qual := [35] |}]
     ++ {| read_res := 7; rec_id := ""; rec_seq := []; rec_qual := [] |} :: [])
    noOutput
  = (Return 1, {| out := []; err := ""; cerr := "" +:+ "Error reading input!" +:+ nl |}).
Proof.
  apply (guessLoop_read_error 1024 newQualityFormatGuess
           [{| read_res := 0; rec_id := "r1"; rec_seq := [DnaA]; rec_qual := [35] |}]
           {| read_res := 7; rec_id := ""; rec_seq := []; rec_qual := [] |} [] noOutput).
  - constructor; [by left | constructor].
  - unfold readable. simpl. lia.
Defined.

(** ** Guessing the source scale *)

Lemma guessLoop_next_guess EOF_BEFORE_SUCCESS rs : ∀ guess s guess' s',
  guessLoop EOF_BEFORE_SUCCESS guess rs s = (Next guess', s') →
  guess' = updateAll guess (rec_qual <$> rs).
Proof.
  induction rs as [|r rs IH]; intros guess s guess' s'.
  - by intros [= <- <-].
  - destruct (negb (read_res r =? 0) && negb (read_res r =? EOF_BEFORE_SUCCESS)) eqn:Hr.
    + simpl. by rewrite Hr.
    + apply readable_test in Hr. rewrite guessLoop_cons_readable by done. apply IH.
Qed.

(** X4.  When the source scale is guessed, the guess [runConvert] goes on
    with is Sanger or Solexa: no input makes the guess Illumina. *)
Theorem auto_guess_never_illumina EOF_BEFORE_SUCCESS options reader s e s' :
  sourceFormat options = AUTO →
  sourceGuess EOF_BEFORE_SUCCESS options reader s = (Next e, s') →
  e = SANGER ∨ e = SOLEXA.
Proof.
  intros Hauto. unfold sourceGuess. rewrite Hauto. unfold mbind, M_bind.
  destruct (guessLoop _ _ _ s) as [[guess| |] s1] eqn:Hloop; [|done..].
  apply guessLoop_next_guess in Hloop. intros Hfin.
  apply finalizeGuess_next in Hfin as (_ & Hne & -> & _). subst guess.
  pose proof (bestGuess_fresh_not_illumina (rec_qual <$> limitedReads reader)) as Hil.
  destruct (bestGuess _); [done|by left|by right|done].
Qed.

Lemma auto_guess_never_illumina_witness :
  SOLEXA = SANGER ∨ SOLEXA = SOLEXA.
Proof.
  apply (auto_guess_never_illumina 1024
           {| renameToNumbers := false; keepNs := false; verbosity := 0; gzip := false;
              guessFormat := false; sourceFormat := AUTO; targetFormat := FASTA |}
           {| checkStreamFormat := Some 2;
              limitedReads := [{| read_res := 0; rec_id := "r1"; rec_seq := [DnaA; DnaC];
                                  rec_qual := [60; 80] |}];
              reads := [] |}
           noOutput SOLEXA noOutput); reflexivity.
Defined.

(** X5.  When the source scale is guessed and every quality byte read lies
    in [64, 74], or no quality byte is read at all, the run is given up as
    ambiguous: [runConvert] returns 1 after naming the three scales on
    [std::cerr]. *)
Theorem auto_guess_ambiguous_band EOF_BEFORE_SUCCESS options reader s :
  sourceFormat options = AUTO →
  Forall (readable EOF_BEFORE_SUCCESS) (limitedReads reader) →
  (∀ c, c ∈ concat (rec_qual <$> limitedReads reader) → 64 ≤ c ≤ 74) →
  sourceGuess EOF_BEFORE_SUCCESS options reader s
  = (Return 1,
     {| out := out s; err := err s;
        cerr := (((cerr s +:+ ambiguousHeader) +:+ couldBe SANGER) +:+ couldBe SOLEXA)
                +:+ couldBe ILLUMINA |}).
Proof.
  intros Hauto Hreads Hband. unfold sourceGuess. rewrite Hauto. unfold mbind, M_bind.
  rewrite guessLoop_readable by done.
  assert (updateAll newQualityFormatGuess (rec_qual <$> limitedReads reader)
          = newQualityFormatGuess) as ->.
  { destruct (fresh_flags (rec_qual <$> limitedReads reader)) as (Hsa & Hso & Hil).
    apply guess_eq; simpl.
    - rewrite Hsa. apply forallb_true_iff. intros c Hc. specialize (Hband c Hc).
      apply negb_true_iff, Z.ltb_ge. lia.
    - rewrite Hso. apply forallb_true_iff. intros c Hc. specialize (Hband c Hc).
      apply negb_true_iff, Z.ltb_ge. lia.
    - rewrite Hil. apply forallb_true_iff. intros c Hc. specialize (Hband c Hc).
      apply negb_true_iff, Z.ltb_ge. lia. }
  by destruct s.
Qed.

Lemma auto_guess_ambiguous_band_witness :
  sourceGuess 1024
    {| renameToNumbers := false; keepNs := false; verbosity := 0; gzip := false;
       guessFormat := false; sourceFormat := AUTO; targetFormat := FASTA |}
    {| checkStreamFormat := Some 2; limitedReads := []; reads := [] |}
    noOutput
  = (Return 1,
     {| out := []; err := "";
        cerr := ((("" +:+ ambiguousHeader) +:+ couldBe SANGER) +:+ couldBe SOLEXA)
                +:+ couldBe ILLUMINA |}).
Proof.
  apply (auto_guess_ambiguous_band 1024
           {| renameToNumbers := false; keepNs := false; verbosity := 0; gzip := false;
              guessFormat := false; sourceFormat := AUTO; targetFormat := FASTA |}
           {| checkStreamFormat := Some 2; limitedReads := []; reads := [] |}
           noOutput).
  - reflexivity.
  - constructor.
  - intros c Hc. by apply elem_of_nil in Hc.
Defined.

(** ** The entries of the conversion table *)

Section EntryFacts.

Context (pow : float → float → float) (log10 : float → float)
        (undefined : float → Z) (debug signed : bool).

Lemma initEntry_default target from i table :
  target ≠ NONE →
  initEntry target from i table = Val (store i (defaultEntry target from i) table).
Proof. by destruct target. Qed.

(** The first loop leaves an array that does not depend on what the array
    held. *)
Lemma init_loop_lookup table target from :
  length table = 256%nat → target ≠ NONE →
  ∃ table1, for_loop 256 0 (initEntry target from) table = Val table1
            ∧ length table1 = 256%nat
            ∧ ∀ k : nat, (k < 256)%nat →
                         table1 !! k = Some (defaultEntry target from (Z.of_nat k)).
Proof.
  intros Hlen Ht.
  destruct (for_loop_total (initEntry target from)
              (λ j t, length t = 256%nat
                      ∧ ∀ k : nat, Z.of_nat k < j →
                                   t !! k = Some (defaultEntry target from (Z.of_nat k)))
              256 0 table) as (table1 & Hloop & Hlen1 & Hall).
  - split; [done|]. intros k Hk. lia.
  - intros j t Hj [Hl Hinv]. rewrite initEntry_default by done.
    eexists. split; [done|]. unfold store. split; [by rewrite length_insert|].
    intros k Hk. destruct (decide (Z.to_nat j = k)) as [<-|Hne].
    + rewrite list_lookup_insert_eq by lia. by rewrite Z2Nat.id by lia.
    + rewrite list_lookup_insert_ne by done. apply Hinv. lia.
  - exists table1. split; [done|]. split; [done|]. intros k Hk. apply Hall. lia.
Qed.

Lemma init_loop_same table table' target from :
  length table = 256%nat → length table' = 256%nat → target ≠ NONE →
  for_loop 256 0 (initEntry target from) table
  = for_loop 256 0 (initEntry target from) table'.
Proof.
  intros Hlen Hlen' Ht.
  destruct (init_loop_lookup table target from Hlen Ht) as (t1 & -> & Hl1 & Hk1).
  destruct (init_loop_lookup table' target from Hlen' Ht) as (t2 & -> & Hl2 & Hk2).
  f_equal. apply list_eq. intros k.
  destruct (decide (k < 256)%nat) as [Hk|Hk].
  - by rewrite Hk1, Hk2.
  - by rewrite !lookup_ge_None_2 by lia.
Qed.

Lemma targetQuality_lowest target p :
  lowestByte target ≤ targetQuality log10 undefined target p.
Proof.
  unfold targetQuality, lowestByte.
  destruct target;
    match goal with |- context [double_to_int ?u ?x] => generalize (double_to_int u x) end;
    intros q;
    repeat match goal with
           | |- context [?a <? ?b] => destruct (Z.ltb_spec a b)
           end; lia.
Qed.

Lemma defaultEntry_range target from i :
  lowestByte target ≤ defaultEntry target from i ≤ 126.
Proof. unfold defaultEntry, lowestByte. destruct target, (i <=? from); lia. Qed.

End EntryFacts.

Lemma table_lookup pow log10 undefined debug signed table source target from tbl :
  length table = 256%nat → target ≠ NONE →
  sourceRange source = Val (from, 126) →
  buildConversionTable pow log10 undefined debug signed table source target = Val tbl →
  ∀ i, 0 ≤ i ≤ 255 →
       (i < from → tbl !! Z.to_nat i = Some (lowestByte target))
       ∧ (126 < i →
          tbl !! Z.to_nat i = Some (match target with SANGER => 73 | _ => 104 end))
       ∧ (from ≤ i ≤ 126 →
          tbl !! Z.to_nat i
          = Some (targetQuality log10 undefined target (errorProbability pow source i))).
Proof.
  intros Hlen Ht Hrange Hbuild.
  assert (Hfrom : from = 33 ∨ from = 59 ∨ from = 64).
  { destruct source; simpl in Hrange; simplify_eq; auto. }
  unfold buildConversionTable in Hbuild. rewrite Hrange in Hbuild.
  destruct (init_loop_lookup table target from Hlen Ht) as (t1 & Hinit & Hl1 & Hk1).
  rewrite Hinit in Hbuild.
  apply (for_loop_inv _
           (λ j t, length t = 256%nat
                   ∧ (∀ k : nat, Z.of_nat k < from ∨ j ≤ Z.of_nat k → t !! k = t1 !! k)
                   ∧ (∀ k : nat, from ≤ Z.of_nat k < j →
                        t !! k = Some (targetQuality log10 undefined target
                                         (errorProbability pow source (Z.of_nat k))))))
    in Hbuild.
  - destruct Hbuild as (Hl & Hout & Hin). intros i Hi.
    replace (from + Z.of_nat (Z.to_nat (126 + 1 - from))) with 127 in * by lia.
    split; [|split].
    + intros Hlt. rewrite Hout by lia. rewrite Hk1 by lia.
      rewrite Z2Nat.id by lia. unfold defaultEntry, lowestByte.
      destruct (Z.leb_spec i from); [by destruct target|lia].
    + intros Hgt. rewrite Hout by lia. rewrite Hk1 by lia.
      rewrite Z2Nat.id by lia. unfold defaultEntry.
      destruct (Z.leb_spec i from); [lia|by destruct target].
    + intros Hin'. rewrite Hin by lia. by rewrite Z2Nat.id by lia.
  - split; [done|]. split; [done|]. intros k Hk. lia.
  - intros j t t' Hj (Hl & Hout & Hin). unfold convertBody.
    destruct (convertEntry _ _ _ _ _ _ _ j) as [q|] eqn:Hentry; [|done].
    intros [= <-]. unfold store.
    rewrite convertEntry_cases in Hentry. cbv zeta in Hentry.
    assert (q = targetQuality log10 undefined target (errorProbability pow source j)) as Hq
      by (repeat case_match; by simplify_eq).
    split; [by rewrite length_insert|]. split.
    + intros k Hk. rewrite list_lookup_insert_ne by lia. apply Hout. lia.
    + intros k Hk. destruct (decide (Z.to_nat j = k)) as [<-|Hne].
      * rewrite list_lookup_insert_eq by lia. rewrite Z2Nat.id by lia. by rewrite Hq.
      * rewrite list_lookup_insert_ne by done. apply Hin. lia.
Qed.

(** X6.  Every entry of a completed table is known: below the source scale's
    lowest byte it is the target scale's lowest byte (33, 59 or 64), above 126
    it is the fallback byte (73 towards Sanger, 104 otherwise), and from the
    source's lowest byte to 126 it is the clamped quality computed from the
    byte's error probability. *)
Theorem conversion_table_entries pow log10 undefined debug signed table source target from tbl :
  length table = 256%nat → target ≠ NONE →
  sourceRange source = Val (from, 126) →
  buildConversionTable pow log10 undefined debug signed table source target = Val tbl →
  ∀ i, 0 ≤ i ≤ 255 →
       (i < from → tbl !! Z.to_nat i = Some (lowestByte target))
       ∧ (126 < i →
          tbl !! Z.to_nat i = Some (match target with SANGER => 73 | _ => 104 end))
       ∧ (from ≤ i ≤ 126 →
          tbl !! Z.to_nat i
          = Some (targetQuality log10 undefined target (errorProbability pow source i))).
Proof. apply table_lookup. Qed.

Lemma conversion_table_entries_witness :
  ∃ tbl, referenceTable SOLEXA SANGER = Val tbl
         ∧ tbl !! 40%nat = Some 33 ∧ tbl !! 200%nat = Some 73.
Proof.
  assert (Hbuild : ∃ tbl, referenceTable SOLEXA SANGER = Val tbl)
    by (vm_compute; eexists; reflexivity).
  destruct Hbuild as [tbl Hbuild]. exists tbl. split; [exact Hbuild|].
  pose proof (conversion_table_entries referencePow referenceLog10 (λ _, INT_MIN) false true
                (replicate 256 0) SOLEXA SANGER 59 tbl eq_refl
                ltac:(discriminate) eq_refl Hbuild) as Hentries.
  split.
  - destruct (Hentries 40 ltac:(lia)) as (Hlow & _ & _). exact (Hlow ltac:(lia)).
  - destruct (Hentries 200 ltac:(lia)) as (_ & Hhigh & _). exact (Hhigh ltac:(lia)).
Defined.

(** X7.  The table does not depend on what the array held before the call:
    two arrays of 256 entries give the same result, table or failure, for the
    same source and target scale. *)
Theorem conversion_table_ignores_array pow log10 undefined debug signed table table'
    source target :
  length table = 256%nat → length table' = 256%nat → target ≠ NONE →
  buildConversionTable pow log10 undefined debug signed table source target
  = buildConversionTable pow log10 undefined debug signed table' source target.
Proof.
  intros Hlen Hlen' Ht. unfold buildConversionTable.
  destruct (sourceRange source) as [[from to]|]; [|done].
  by rewrite (init_loop_same table table' target from).
Qed.

Lemma conversion_table_ignores_array_witness :
  referenceTable SANGER ILLUMINA
  = buildConversionTable referencePow referenceLog10 (λ _, INT_MIN) false true
      (seqZ 0 256) SANGER ILLUMINA.
Proof.
  apply (conversion_table_ignores_array referencePow referenceLog10 (λ _, INT_MIN) false true
           (replicate 256 0) (seqZ 0 256) SANGER ILLUMINA); [reflexivity..|discriminate].
Defined.

(** X8.  Whatever bytes a quality string holds, its conversion through a
    completed table holds only bytes from the target scale's lowest byte (33
    for Sanger, 59 for Solexa, 64 for Illumina) up to 126. *)
Theorem converted_qualities_in_range pow log10 undefined debug signed table source target
    tbl qual :
  length table = 256%nat → source ≠ NONE → target ≠ NONE →
  buildConversionTable pow log10 undefined debug signed table source target = Val tbl →
  Forall (λ v, lowestByte target ≤ v ≤ 126) (convertQualities tbl qual).
Proof.
  intros Hlen Hs Ht Hbuild.
  destruct (sourceRange_concrete source Hs) as (from & Hrange & Hfrom).
  pose proof (table_lookup _ _ _ _ _ _ _ _ _ _ Hlen Ht Hrange Hbuild) as Hentries.
  assert (Hall : ∀ i, 0 ≤ i ≤ 255 → lowestByte target ≤ tbl !!! Z.to_nat i ≤ 126).
  { intros i Hi. destruct (Hentries i Hi) as (Hlow & Hhigh & Hmid).
    destruct (decide (i < from)) as [Hlt|Hge].
    - rewrite (list_lookup_total_correct _ _ _ (Hlow Hlt)). destruct target; simpl; lia.
    - destruct (decide (126 < i)) as [Hgt|Hle].
      + rewrite (list_lookup_total_correct _ _ _ (Hhigh Hgt)). destruct target; simpl; lia.
      + rewrite (list_lookup_total_correct _ _ _ (Hmid ltac:(lia))).
        pose proof (targetQuality_range log10 undefined target
                      (errorProbability pow source i)).
        pose proof (targetQuality_lowest log10 undefined target
                      (errorProbability pow source i)). lia. }
  induction qual as [|c qual IH]; simpl; constructor; [|done].
  apply Hall. unfold static_cast_uint8.
  pose proof (Z.mod_pos_bound c 256). lia.
Qed.

Lemma converted_qualities_in_range_witness :
  ∃ tbl, referenceTable SANGER SOLEXA = Val tbl
         ∧ Forall (λ v, 59 ≤ v ≤ 126) (convertQualities tbl [-3; 40; 73; 200]).
Proof.
  assert (Hbuild : ∃ tbl, referenceTable SANGER SOLEXA = Val tbl)
    by (vm_compute; eexists; reflexivity).
  destruct Hbuild as [tbl Hbuild]. exists tbl. split; [exact Hbuild|].
  apply (converted_qualities_in_range referencePow referenceLog10 (λ _, INT_MIN) false true
           (replicate 256 0) SANGER SOLEXA tbl [-3; 40; 73; 200]);
    [reflexivity | discriminate | discriminate | exact Hbuild].
Defined.

(** ** The writing loops *)

Section WritingLoops.

Context (writeStatus : list OutEvent → OutEvent → Z).
Context (options : FxConvertOptions).

Lemma numAt_next num k : numAt options (nextNum options num) k = numAt options num (S k).
Proof. unfold numAt. by rewrite Nat.iter_succ_r. Qed.

Lemma imap_numAt {A : Type} (f : Z → ReadOutcome → A) num rs :
  imap (λ k r, f (numAt options (nextNum options num) k) r) rs
  = imap ((λ k r, f (numAt options num k) r) ∘ S) rs.
Proof. apply imap_ext. intros k r _. simpl. by rewrite numAt_next. Qed.

Lemma fastaLoop_step num r rs s :
  readOk r →
  writeStatus (out s) (WriteFasta (renamed options num (rec_id r)) (rec_seq r)) = 0 →
  fastaLoop writeStatus options num (r :: rs) s
  = fastaLoop writeStatus options (nextNum options num) rs
      {| out := out s ++ [WriteFasta (renamed options num (rec_id r)) (rec_seq r)];
         err := err s; cerr := cerr s |}.
Proof.
  unfold readOk. intros Hread Hwrite. simpl. rewrite Hread. simpl.
  unfold mbind, M_bind, writeRecord. by rewrite Hwrite.
Qed.

Lemma fastqLoop_step formatGuess outFormat table num r rs s :
  readOk r →
  writeStatus (out s) (outputRecord options formatGuess outFormat table num r) = 0 →
  fastqLoop writeStatus options formatGuess outFormat table num (r :: rs) s
  = fastqLoop writeStatus options formatGuess outFormat table (nextNum options num) rs
      {| out := out s ++ [outputRecord options formatGuess outFormat table num r];
         err := err s; cerr := cerr s |}.
Proof.
  unfold readOk. intros Hread Hwrite. simpl. rewrite Hread. simpl.
  unfold mbind, M_bind, writeRecord. by rewrite Hwrite.
Qed.

(** The FASTA loop over records that are all read and written: then over
    what follows them. *)
Lemma fastaLoop_app good : ∀ num rest s,
  accepting writeStatus → Forall readOk good →
  fastaLoop writeStatus options num (good ++ rest) s
  = fastaLoop writeStatus options (numAt options num (length good)) rest
      {| out := out s ++ imap (λ k r, WriteFasta (renamed options (numAt options num k)
                                                    (rec_id r)) (rec_seq r)) good;
         err := err s; cerr := cerr s |}.
Proof.
  induction good as [|r good IH]; intros num rest s Hws Hgood.
  - simpl. rewrite app_nil_r. by destruct s.
  - apply Forall_cons in Hgood as [Hr Hgood].
    rewrite <- app_comm_cons, fastaLoop_step by done.
    rewrite IH by done. simpl. rewrite numAt_next. do 2 f_equal.
    rewrite <- app_assoc. simpl. do 2 f_equal.
    apply (imap_numAt (λ n r, WriteFasta (renamed options n (rec_id r)) (rec_seq r))).
Qed.

Lemma fastqLoop_app formatGuess outFormat table good : ∀ num rest s,
  accepting writeStatus → Forall readOk good →
  fastqLoop writeStatus options formatGuess outFormat table num (good ++ rest) s
  = fastqLoop writeStatus options formatGuess outFormat table
      (numAt options num (length good)) rest
      {| out := out s ++ imap (λ k r, outputRecord options formatGuess outFormat table
                                        (numAt options num k) r) good;
         err := err s; cerr := cerr s |}.
Proof.
  induction good as [|r good IH]; intros num rest s Hws Hgood.
  - simpl. rewrite app_nil_r. by destruct s.
  - apply Forall_cons in Hgood as [Hr Hgood].
    rewrite <- app_comm_cons, fastqLoop_step by done.
    rewrite IH by done. simpl. rewrite numAt_next. do 2 f_equal.
    rewrite <- app_assoc. simpl. do 2 f_equal.
    apply (imap_numAt (λ n r, outputRecord options formatGuess outFormat table n r)).
Qed.

End WritingLoops.

(** X9.  When a [readRecord] of the FASTQ loop fails, the run ends with
    status 1 and [ERROR: Problem reading FASTQ file!] on [std::cerr]; the
    records before it have been written, in order, and nothing after it is
    read or written. *)
Theorem fastqLoop_read_failure writeStatus options formatGuess outFormat table num
    good bad rest s :
  accepting writeStatus → Forall readOk good → ¬ readOk bad →
  fastqLoop writeStatus options formatGuess outFormat table num (good ++ bad :: rest) s
  = (Return 1,
     {| out := out s ++ imap (λ k r, outputRecord options formatGuess outFormat table
                                       (numAt options num k) r) good;
        err := err s;
        cerr := cerr s +:+ "ERROR: Problem reading FASTQ file!" +:+ nl |}).
Proof.
  intros Hws Hgood Hbad. rewrite fastqLoop_app by done. simpl.
  unfold readOk in Hbad. apply Z.eqb_neq in Hbad. by rewrite Hbad.
Qed.

Lemma fastqLoop_read_failure_witness :
  fastqLoop (λ _ _, 0) defaultOptions SANGER NONE [] 1
    ([{| read_res := 0; rec_id := "r1"; rec_seq := [DnaA]; rec_qual := [40] |}]
     ++ {| read_res := 3; rec_id := ""; rec_seq := []; rec_qual := [] |}
        :: [{| read_res := 0; rec_id := "r3"; rec_seq := [DnaT]; rec_qual := [41] |}])
    noOutput
  = (Return 1,
     {| out := [WriteFasta "r1" [DnaA]]; err := "";
        cerr := "" +:+ "ERROR: Problem reading FASTQ file!" +:+ nl |}).
Proof.
  apply (fastqLoop_read_failure (λ _ _, 0) defaultOptions SANGER NONE [] 1
           [{| read_res := 0; rec_id := "r1"; rec_seq := [DnaA]; rec_qual := [40] |}]
           {| read_res := 3; rec_id := ""; rec_seq := []; rec_qual := [] |}
           [{| read_res := 0; rec_id := "r3"; rec_seq := [DnaT]; rec_qual := [41] |}]
           noOutput).
  - intros written ev. reflexivity.
  - constructor; [reflexivity | constructor].
  - unfold readOk. simpl. lia.
Defined.

Section RunFacts.

Context (pow : float → float → float) (log10 : float → float)
        (undefined : float → Z) (debug signed : bool) (EOF_BEFORE_SUCCESS : Z)
        (writeStatus : list OutEvent → OutEvent → Z) (uninitialized : Z → Z).

(** [runConvert] past [checkStreamFormat]: the notice of the file format. *)
Lemma runConvert_format options reader tagId s :
  checkStreamFormat reader = Some tagId →
  ∃ notice,
    (verbosity options < 2 → notice = "")
    ∧ runConvert pow log10 undefined debug signed EOF_BEFORE_SUCCESS writeStatus uninitialized
        options reader s
      = ((if tagId =? 2
          then convertFastq pow log10 undefined debug signed EOF_BEFORE_SUCCESS writeStatus
                 uninitialized options reader
          else fastaLoop writeStatus options 1 (reads reader));; returnWith 0)
          {| out := out s; err := err s +:+ notice; cerr := cerr s |}.
Proof.
  intros Hfmt. unfold runConvert. rewrite Hfmt.
  destruct (Z.leb_spec 2 (verbosity options)) as [Hv|Hv].
  - destruct (tagId =? 1); eexists; (split; [lia|]); unfold mbind, M_bind, putErr; done.
  - exists "". split; [done|]. unfold mbind, M_bind, skip, mret, M_ret.
    rewrite append_empty_r. by destruct s.
Qed.

Lemma outputRecord_fastq options formatGuess outFormat table num r :
  outFormat ≠ NONE →
  outputRecord options formatGuess outFormat table num r
  = WriteFastq (renamed options num (rec_id r)) (rec_seq r)
      (if decide (formatGuess ≠ outFormat)
       then convertQualities table (rec_qual r) else rec_qual r).
Proof. intros Hout. unfold outputRecord. by destruct outFormat. Qed.

End RunFacts.

(** ** Whole runs *)

(** X10.  On an input that is not FASTQ, when every record is read and the
    writer takes every record, [runConvert] returns 0 after writing one FASTA
    record per record read, in order, with the sequence read and the
    identifier read, or the counter in its place when identifiers are
    renamed; nothing is printed on [std::cerr], and nothing on [err] below
    verbosity 2. *)
Theorem fasta_input_is_copied pow log10 undefined debug signed EOF_BEFORE_SUCCESS writeStatus
    uninitialized options reader tagId :
  checkStreamFormat reader = Some tagId → tagId ≠ 2 →
  accepting writeStatus → Forall readOk (reads reader) →
  ∃ notice,
    (verbosity options < 2 → notice = "")
    ∧ runConvert pow log10 undefined debug signed EOF_BEFORE_SUCCESS writeStatus uninitialized
        options reader noOutput
      = (Return 0,
         {| out := imap (λ k r, WriteFasta (renamed options (numAt options 1 k) (rec_id r))
                                  (rec_seq r)) (reads reader);
            err := notice; cerr := "" |}).
Proof.
  intros Hfmt Htag Hws Hreads.
  destruct (runConvert_format pow log10 undefined debug signed EOF_BEFORE_SUCCESS writeStatus
              uninitialized options reader tagId noOutput Hfmt) as (notice & Hnotice & ->).
  exists notice. split; [done|].
  apply Z.eqb_neq in Htag. rewrite Htag. unfold mbind, M_bind.
  pose proof (fastaLoop_app writeStatus options (reads reader) 1 []
                {| out := []; err := "" +:+ notice; cerr := "" |} Hws Hreads) as Hloop.
  rewrite app_nil_r in Hloop. simpl in Hloop. simpl. by rewrite Hloop.
Qed.

Lemma fasta_input_is_copied_witness :
  ∃ notice,
    runConvert referencePow referenceLog10 (λ _, INT_MIN) false true 1024 (λ _ _, 0) (λ _, 0)
      {| renameToNumbers := true; keepNs := false; verbosity := 0; gzip := false;
         guessFormat := false; sourceFormat := AUTO; targetFormat := FASTA |}
      {| checkStreamFormat := Some 1; limitedReads := [];
         reads := [{| read_res := 0; rec_id := "a"; rec_seq := [DnaA]; rec_qual := [] |};
                   {| read_res := 0; rec_id := "b"; rec_seq := [DnaC]; rec_qual := [] |}] |}
      noOutput
    = (Return 0,
       {| out := [WriteFasta "1" [DnaA]; WriteFasta "2" [DnaC]]; err := notice; cerr := "" |}).
Proof.
  destruct (fasta_input_is_copied referencePow referenceLog10 (λ _, INT_MIN) false true 1024
              (λ _ _, 0) (λ _, 0)
              {| renameToNumbers := true; keepNs := false; verbosity := 0; gzip := false;
                 guessFormat := false; sourceFormat := AUTO; targetFormat := FASTA |}
              {| checkStreamFormat := Some 1; limitedReads := [];
                 reads := [{| read_res := 0; rec_id := "a"; rec_seq := [DnaA];
                              rec_qual := [] |};
                           {| read_res := 0; rec_id := "b"; rec_seq := [DnaC];
                              rec_qual := [] |}] |}
              1) as (notice & _ & Hrun).
  - reflexivity.
  - lia.
  - intros written ev. reflexivity.
  - constructor; [reflexivity | constructor; [reflexivity | constructor]].
  - exists notice. exact Hrun.
Defined.

(** X11.  On an input that is not FASTQ, a failing [readRecord] ends the run
    with status 1 and [ERROR: Problem reading FASTA file!] on [std::cerr];
    the records read before it have been written and stay written. *)
Theorem fasta_input_read_failure pow log10 undefined debug signed EOF_BEFORE_SUCCESS
    writeStatus uninitialized options reader tagId good bad rest :
  checkStreamFormat reader = Some tagId → tagId ≠ 2 →
  accepting writeStatus →
  reads reader = good ++ bad :: rest → Forall readOk good → ¬ readOk bad →
  ∃ notice,
    (verbosity options < 2 → notice = "")
    ∧ runConvert pow log10 undefined debug signed EOF_BEFORE_SUCCESS writeStatus uninitialized
        options reader noOutput
      = (Return 1,
         {| out := imap (λ k r, WriteFasta (renamed options (numAt options 1 k) (rec_id r))
                                  (rec_seq r)) good;
            err := notice;
            cerr := "ERROR: Problem reading FASTA file!" +:+ nl |}).
Proof.
  intros Hfmt Htag Hws Hsplit Hgood Hbad.
  destruct (runConvert_format pow log10 undefined debug signed EOF_BEFORE_SUCCESS writeStatus
              uninitialized options reader tagId noOutput Hfmt) as (notice & Hnotice & ->).
  exists notice. split; [done|].
  apply Z.eqb_neq in Htag. rewrite Htag, Hsplit. unfold mbind, M_bind.
  rewrite fastaLoop_app by done. simpl.
  unfold readOk in Hbad. apply Z.eqb_neq in Hbad. by rewrite Hbad.
Qed.

Lemma fasta_input_read_failure_witness :
  ∃ notice,
    runConvert referencePow referenceLog10 (λ _, INT_MIN) false true 1024 (λ _ _, 0) (λ _, 0)
      defaultOptions
      {| checkStreamFormat := Some 1; limitedReads := [];
         reads := [{| read_res := 0; rec_id := "a"; rec_seq := [DnaA]; rec_qual := [] |}]
                  ++ {| read_res := 5; rec_id := ""; rec_seq := []; rec_qual := [] |} :: [] |}
      noOutput
    = (Return 1,
       {| out := [WriteFasta "a" [DnaA]]; err := notice;
          cerr := "ERROR: Problem reading FASTA file!" +:+ nl |}).
Proof.
  destruct (fasta_input_read_failure referencePow referenceLog10 (λ _, INT_MIN) false true
              1024 (λ _ _, 0) (λ _, 0) defaultOptions
              {| checkStreamFormat := Some 1; limitedReads := [];
                 reads := [{| read_res := 0; rec_id := "a"; rec_seq := [DnaA];
                              rec_qual := [] |}]
                          ++ {| read_res := 5; rec_id := ""; rec_seq := []; rec_qual := [] |}
                             :: [] |}
              1
              [{| read_res := 0; rec_id := "a"; rec_seq := [DnaA]; rec_qual := [] |}]
              {| read_res := 5; rec_id := ""; rec_seq := []; rec_qual := [] |} [])
    as (notice & _ & Hrun).
  - reflexivity.
  - lia.
  - intros written ev. reflexivity.
  - reflexivity.
  - constructor; [reflexivity | constructor].
  - unfold readOk. simpl. lia.
  - exists notice. exact Hrun.
Defined.

Lemma append_assoc (a b c : string) : (a +:+ b) +:+ c = a +:+ (b +:+ c).
Proof.
  induction a as [|x a IH]; [done|].
  change (String x ((a +:+ b) +:+ c) = String x (a +:+ (b +:+ c))). by rewrite IH.
Qed.

Section FastqRunFacts.

Context (pow : float → float → float) (log10 : float → float)
        (undefined : float → Z) (debug signed : bool) (EOF_BEFORE_SUCCESS : Z)
        (writeStatus : list OutEvent → OutEvent → Z) (uninitialized : Z → Z).

(** The array [qualityConversionTable] has 256 entries. *)
Lemma length_uninitialized : length (uninitialized <$> seqZ 0 256) = 256%nat.
Proof. by rewrite length_fmap, length_seqZ. Qed.

(** The FASTQ branch past the guess, when the run does not stop at the
    guess: the table is built if the target is a FASTQ scale, and the loop
    runs. *)
Lemma convertFastq_converts options reader formatGuess :
  guessFormat options = false →
  (∀ t, sourceGuess EOF_BEFORE_SUCCESS options reader t = (Next formatGuess, t)) →
  ∃ notice,
    (verbosity options < 2 → notice = "")
    ∧ ∀ s,
        convertFastq pow log10 undefined debug signed EOF_BEFORE_SUCCESS writeStatus
          uninitialized options reader s
        = match
            if decide (outFormatOf (targetFormat options) ≠ NONE)
            then buildConversionTable pow log10 undefined debug signed
                   (uninitialized <$> seqZ 0 256) formatGuess
                   (outFormatOf (targetFormat options))
            else Val (uninitialized <$> seqZ 0 256)
          with
          | Val table =>
              fastqLoop writeStatus options formatGuess (outFormatOf (targetFormat options))
                table 1 (reads reader)
                {| out := out s; err := err s +:+ notice; cerr := cerr s |}
          | Failed msg =>
              (Abort msg, {| out := out s; err := err s +:+ notice; cerr := cerr s |})
          end.
Proof.
  intros Hguess Hsource.
  exists (if 2 <=? verbosity options
          then "Guessed input quality scale to be " +:+ formatName formatGuess +:+ nl
          else "").
  split; [intros Hv; by destruct (Z.leb_spec 2 (verbosity options)); [lia|]|].
  intros s. unfold convertFastq, mbind, M_bind. rewrite Hsource, Hguess.
  unfold build.
  destruct (2 <=? verbosity options); simpl.
  - rewrite !append_assoc.
    destruct (decide (outFormatOf (targetFormat options) ≠ NONE)); [|done].
    by destruct (buildConversionTable _ _ _ _ _ _ _ _).
  - rewrite append_empty_r. replace {| out := out s; err := err s; cerr := cerr s |} with s
      by (by destruct s).
    destruct (decide (outFormatOf (targetFormat options) ≠ NONE)); [|done].
    by destruct (buildConversionTable _ _ _ _ _ _ _ _).
Qed.

(** [runConvert] on a FASTQ input whose source scale is determined, in a run
    that does not stop at the guess. *)
Lemma runConvert_fastq options reader formatGuess s1 :
  checkStreamFormat reader = Some 2 →
  guessFormat options = false →
  sourceGuess EOF_BEFORE_SUCCESS options reader noOutput = (Next formatGuess, s1) →
  ∃ notice,
    (verbosity options < 2 → notice = "")
    ∧ runConvert pow log10 undefined debug signed EOF_BEFORE_SUCCESS writeStatus uninitialized
        options reader noOutput
      = match
          if decide (outFormatOf (targetFormat options) ≠ NONE)
          then buildConversionTable pow log10 undefined debug signed
                 (uninitialized <$> seqZ 0 256) formatGuess
                 (outFormatOf (targetFormat options))
          else Val (uninitialized <$> seqZ 0 256)
        with
        | Val table =>
            (fastqLoop writeStatus options formatGuess (outFormatOf (targetFormat options))
               table 1 (reads reader);; returnWith 0)
              {| out := []; err := notice; cerr := "" |}
        | Failed msg => (Abort msg, {| out := []; err := notice; cerr := "" |})
        end.
Proof.
  intros Hfmt Hguess Hsource.
  apply sourceGuess_next in Hsource as (_ & _ & Hany).
  destruct (runConvert_format pow log10 undefined debug signed EOF_BEFORE_SUCCESS writeStatus
              uninitialized options reader 2 noOutput Hfmt) as (notice1 & Hnotice1 & ->).
  destruct (convertFastq_converts options reader formatGuess Hguess Hany)
    as (notice2 & Hnotice2 & Hconvert).
  exists (notice1 +:+ notice2). split.
  - intros Hv. by rewrite Hnotice1, Hnotice2.
  - simpl. unfold mbind, M_bind at 1. rewrite Hconvert. simpl.
    by destruct (if decide _ then _ else _).
Qed.

End FastqRunFacts.

(** X12.  A FASTQ input converted to FASTA (the target when no FASTQ scale is
    asked for): once the source scale is determined, when every record is
    read and the writer takes every record, [runConvert] returns 0 after
    writing one FASTA record per record read, in order, without the
    qualities; no table is built, so no assertion can abort the run. *)
Theorem fastq_to_fasta_drops_quality pow log10 undefined debug signed EOF_BEFORE_SUCCESS
    writeStatus uninitialized options reader formatGuess s1 :
  checkStreamFormat reader = Some 2 →
  guessFormat options = false →
  outFormatOf (targetFormat options) = NONE →
  sourceGuess EOF_BEFORE_SUCCESS options reader noOutput = (Next formatGuess, s1) →
  accepting writeStatus → Forall readOk (reads reader) →
  ∃ notice,
    (verbosity options < 2 → notice = "")
    ∧ runConvert pow log10 undefined debug signed EOF_BEFORE_SUCCESS writeStatus uninitialized
        options reader noOutput
      = (Return 0,
         {| out := imap (λ k r, WriteFasta (renamed options (numAt options 1 k) (rec_id r))
                                  (rec_seq r)) (reads reader);
            err := notice; cerr := "" |}).
Proof.
  intros Hfmt Hguess Hout Hsource Hws Hreads.
  destruct (runConvert_fastq pow log10 undefined debug signed EOF_BEFORE_SUCCESS writeStatus
              uninitialized options reader formatGuess s1 Hfmt Hguess Hsource)
    as (notice & Hnotice & ->).
  exists notice. split; [done|].
  rewrite Hout. rewrite decide_False by (intros H; by apply H).
  unfold mbind, M_bind.
  pose proof (fastqLoop_app writeStatus options formatGuess NONE
                (uninitialized <$> seqZ 0 256) (reads reader) 1 []
                {| out := []; err := notice; cerr := "" |} Hws Hreads) as Hloop.
  rewrite app_nil_r in Hloop. by rewrite Hloop.
Qed.

Lemma fastq_to_fasta_drops_quality_witness :
  ∃ notice,
    runConvert referencePow referenceLog10 (λ _, INT_MIN) true true 1024 (λ _ _, 0) (λ _, 0)
      defaultOptions
      {| checkStreamFormat := Some 2;
         limitedReads := [{| read_res := 0; rec_id := "a"; rec_seq := [DnaA];
                             rec_qual := [35] |}];
         reads := [{| read_res := 0; rec_id := "a"; rec_seq := [DnaA]; rec_qual := [35] |}] |}
      noOutput
    = (Return 0, {| out := [WriteFasta "a" [DnaA]]; err := notice; cerr := "" |}).
Proof.
  destruct (fastq_to_fasta_drops_quality referencePow referenceLog10 (λ _, INT_MIN) true true
              1024 (λ _ _, 0) (λ _, 0) defaultOptions
              {| checkStreamFormat := Some 2;
                 limitedReads := [{| read_res := 0; rec_id := "a"; rec_seq := [DnaA];
                                     rec_qual := [35] |}];
                 reads := [{| read_res := 0; rec_id := "a"; rec_seq := [DnaA];
                              rec_qual := [35] |}] |}
              SANGER noOutput) as (notice & _ & Hrun).
  - reflexivity.
  - reflexivity.
  - reflexivity.
  - reflexivity.
  - intros written ev. reflexivity.
  - constructor; [reflexivity | constructor].
  - exists notice. exact Hrun.
Defined.

(** X13.  A FASTQ input converted to a FASTQ scale: once the source scale is
    determined and the table built, when every record is read and the writer
    takes every record, [runConvert] returns 0 after writing one FASTQ record
    per record read, in order, each with the sequence read and with the
    quality string read when the two scales are equal, and its conversion
    through the table otherwise. *)
Theorem fastq_to_fastq_converts pow log10 undefined debug signed EOF_BEFORE_SUCCESS
    writeStatus uninitialized options reader formatGuess s1 tbl :
  checkStreamFormat reader = Some 2 →
  guessFormat options = false →
  outFormatOf (targetFormat options) ≠ NONE →
  sourceGuess EOF_BEFORE_SUCCESS options reader noOutput = (Next formatGuess, s1) →
  buildConversionTable pow log10 undefined debug signed (uninitialized <$> seqZ 0 256)
    formatGuess (outFormatOf (targetFormat options)) = Val tbl →
  accepting writeStatus → Forall readOk (reads reader) →
  ∃ notice,
    (verbosity options < 2 → notice = "")
    ∧ runConvert pow log10 undefined debug signed EOF_BEFORE_SUCCESS writeStatus uninitialized
        options reader noOutput
      = (Return 0,
         {| out := imap (λ k r,
                      WriteFastq (renamed options (numAt options 1 k) (rec_id r)) (rec_seq r)
                        (if decide (formatGuess ≠ outFormatOf (targetFormat options))
                         then convertQualities tbl (rec_qual r)
                         else rec_qual r))
                     (reads reader);
            err := notice; cerr := "" |}).
Proof.
  intros Hfmt Hguess Hout Hsource Hbuild Hws Hreads.
  destruct (runConvert_fastq pow log10 undefined debug signed EOF_BEFORE_SUCCESS writeStatus
              uninitialized options reader formatGuess s1 Hfmt Hguess Hsource)
    as (notice & Hnotice & ->).
  exists notice. split; [done|].
  rewrite decide_True by done. rewrite Hbuild.
  unfold mbind, M_bind.
  pose proof (fastqLoop_app writeStatus options formatGuess
                (outFormatOf (targetFormat options)) tbl (reads reader) 1 []
                {| out := []; err := notice; cerr := "" |} Hws Hreads) as Hloop.
  rewrite app_nil_r in Hloop. rewrite Hloop. simpl. do 2 f_equal.
  apply imap_ext. intros k r _. by apply outputRecord_fastq.
Qed.

Lemma fastq_to_fastq_converts_witness :
  ∃ (tbl : list Z) notice,
    runConvert referencePow referenceLog10 (λ _, INT_MIN) false true 1024 (λ _ _, 0) (λ _, 0)
      {| renameToNumbers := true; keepNs := false; verbosity := 0; gzip := false;
         guessFormat := false; sourceFormat := FASTQ_SANGER; targetFormat := FASTQ_SOLEXA |}
      {| checkStreamFormat := Some 2; limitedReads := [];
         reads := [{| read_res := 0; rec_id := "a"; rec_seq := [DnaA]; rec_qual := [40] |}] |}
      noOutput
    = (Return 0,
       {| out := [WriteFastq "1" [DnaA] [tbl !!! 40%nat]]; err := notice; cerr := "" |}).
Proof.
  assert (Hbuild : ∃ tbl,
             buildConversionTable referencePow referenceLog10 (λ _, INT_MIN) false true
               ((λ _, 0) <$> seqZ 0 256) SANGER SOLEXA = Val tbl)
    by (vm_compute; eexists; reflexivity).
  destruct Hbuild as [tbl Hbuild]. exists tbl.
  destruct (fastq_to_fastq_converts referencePow referenceLog10 (λ _, INT_MIN) false true
              1024 (λ _ _, 0) (λ _, 0)
              {| renameToNumbers := true; keepNs := false; verbosity := 0; gzip := false;
                 guessFormat := false; sourceFormat := FASTQ_SANGER;
                 targetFormat := FASTQ_SOLEXA |}
              {| checkStreamFormat := Some 2; limitedReads := [];
                 reads := [{| read_res := 0; rec_id := "a"; rec_seq := [DnaA];
                              rec_qual := [40] |}] |}
              SANGER noOutput tbl) as (notice & _ & Hrun).
  - reflexivity.
  - reflexivity.
  - discriminate.
  - reflexivity.
  - exact Hbuild.
  - intros written ev. reflexivity.
  - constructor; [reflexivity | constructor].
  - exists notice. exact Hrun.
Defined.

(** ** How a run ends *)

Section Outcomes.

Context (pow : float → float → float) (log10 : float → float)
        (undefined : float → Z) (debug signed : bool) (EOF_BEFORE_SUCCESS : Z)
        (writeStatus : list OutEvent → OutEvent → Z) (uninitialized : Z → Z).

Lemma complaint_putCerr (s : Streams) (msg : string) :
  msg ≠ "" →
  complaint s {| out := out s; err := err s; cerr := cerr s +:+ msg |}.
Proof. intros Hmsg. by exists msg. Qed.

Lemma guessLoop_outcome rs : ∀ guess s,
  (∃ guess', guessLoop EOF_BEFORE_SUCCESS guess rs s = (Next guess', s))
  ∨ (∃ s', guessLoop EOF_BEFORE_SUCCESS guess rs s = (Return 1, s') ∧ complaint s s').
Proof.
  induction rs as [|r rs IH]; intros guess s.
  - left. by eexists.
  - destruct (negb (read_res r =? 0) && negb (read_res r =? EOF_BEFORE_SUCCESS)) eqn:Hr.
    + right. simpl. rewrite Hr. eexists. split; [done|]. apply complaint_putCerr; discriminate.
    + apply readable_test in Hr. rewrite guessLoop_cons_readable by done. apply IH.
Qed.

Lemma finalizeGuess_outcome guess s :
  (∃ e, e ≠ NONE ∧ finalizeGuess guess s = (Next e, s))
  ∨ (∃ s', finalizeGuess guess s = (Return 1, s') ∧ complaint s s').
Proof.
  destruct s as [o e c].
  destruct guess as [[|] [|] [|]];
    first [ left; eexists; split; [|reflexivity]; discriminate
          | right; eexists; split; [reflexivity|];
            eexists; split; [|simpl; rewrite ?append_assoc; reflexivity]; discriminate ].
Qed.

Lemma sourceGuess_outcome options reader s :
  (∃ e, e ≠ NONE ∧ ∀ t, sourceGuess EOF_BEFORE_SUCCESS options reader t = (Next e, t))
  ∨ (∃ s', sourceGuess EOF_BEFORE_SUCCESS options reader s = (Return 1, s')
           ∧ complaint s s')
  ∨ (sourceFormat options = FASTA
     ∧ sourceGuess EOF_BEFORE_SUCCESS options reader s
       = (Abort ("Should never reach here!" +:+ nl), s)).
Proof.
  destruct (sourceFormat options) eqn:Hsf.
  - destruct (sourceGuess EOF_BEFORE_SUCCESS options reader s) as [[e| |] s'] eqn:Hsg.
    + left. apply sourceGuess_next in Hsg as (_ & Hne & Hany). by exists e.
    + right; left. exists s'. unfold sourceGuess in Hsg. rewrite Hsf in Hsg.
      unfold mbind, M_bind in Hsg.
      destruct (guessLoop_outcome (limitedReads reader) newQualityFormatGuess s)
        as [[g Hloop]|(s2 & Hloop & Hc)]; rewrite Hloop in Hsg.
      * destruct (finalizeGuess_outcome g s) as [(e & _ & Hfin)|(s2 & Hfin & Hc)];
          rewrite Hfin in Hsg; by simplify_eq.
      * by simplify_eq.
    + exfalso. unfold sourceGuess in Hsg. rewrite Hsf in Hsg.
      unfold mbind, M_bind in Hsg.
      destruct (guessLoop_outcome (limitedReads reader) newQualityFormatGuess s)
        as [[g Hloop]|(s2 & Hloop & Hc)]; rewrite Hloop in Hsg; [|done].
      destruct (finalizeGuess_outcome g s) as [(e & _ & Hfin)|(s2 & Hfin & Hc)];
        rewrite Hfin in Hsg; done.
  - right; right. split; [done|]. unfold sourceGuess. by rewrite Hsf.
  - left. exists ILLUMINA. split; [done|]. intros t. unfold sourceGuess. by rewrite Hsf.
  - left. exists SANGER. split; [done|]. intros t. unfold sourceGuess. by rewrite Hsf.
  - left. exists SOLEXA. split; [done|]. intros t. unfold sourceGuess. by rewrite Hsf.
Qed.

Lemma fastqLoop_outcome options formatGuess outFormat table rs : ∀ num s,
  (∃ s', fastqLoop writeStatus options formatGuess outFormat table num rs s = (Next tt, s')
         ∧ cerr s' = cerr s)
  ∨ (∃ s', fastqLoop writeStatus options formatGuess outFormat table num rs s = (Return 1, s')
           ∧ complaint s s').
Proof.
  induction rs as [|r rs IH]; intros num s.
  - left. by exists s.
  - simpl. destruct (read_res r =? 0); simpl.
    + unfold mbind, M_bind, writeRecord.
      destruct (writeStatus (out s) _ =? 0) eqn:Hw; simpl.
      * match goal with
        | |- context [fastqLoop _ _ _ _ _ ?n rs ?st] =>
            destruct (IH n st) as [(s' & H & Hc)|(s' & H & Hc)]; rewrite H;
            [left|right]; exists s'; (split; [done|exact Hc])
        end.
      * right. eexists. split; [done|].
        destruct outFormat; apply complaint_putCerr; discriminate.
    + right. eexists. split; [done|]. apply complaint_putCerr; discriminate.
Qed.

Lemma fastaLoop_outcome options rs : ∀ num s,
  (∃ s', fastaLoop writeStatus options num rs s = (Next tt, s') ∧ cerr s' = cerr s)
  ∨ (∃ s', fastaLoop writeStatus options num rs s = (Return 1, s') ∧ complaint s s').
Proof.
  induction rs as [|r rs IH]; intros num s.
  - left. by exists s.
  - simpl. destruct (read_res r =? 0); simpl.
    + unfold mbind, M_bind, writeRecord.
      destruct (writeStatus (out s) _ =? 0) eqn:Hw; simpl.
      * match goal with
        | |- context [fastaLoop _ _ ?n rs ?st] =>
            destruct (IH n st) as [(s' & H & Hc)|(s' & H & Hc)]; rewrite H;
            [left|right]; exists s'; (split; [done|exact Hc])
        end.
      * right. eexists. split; [done|]. apply complaint_putCerr; discriminate.
    + right. eexists. split; [done|]. apply complaint_putCerr; discriminate.
Qed.

End Outcomes.

(** X14.  However a run of [runConvert] goes, it ends in one of three ways:
    it returns 0, and then nothing was printed on [std::cerr]; or it returns
    1, and then it said why, on [err] when the file format cannot be
    determined and on [std::cerr] otherwise; or the program aborts, which
    happens only on a FASTQ input, when the source format given is [fasta] or
    when an assertion on an error probability fails while the table is
    built. *)
Theorem run_ends_with_reason pow log10 undefined debug signed EOF_BEFORE_SUCCESS writeStatus
    uninitialized options reader s :
  let result := runConvert pow log10 undefined debug signed EOF_BEFORE_SUCCESS writeStatus
                  uninitialized options reader s in
  (result.1 = Return 0 ∧ cerr result.2 = cerr s)
  ∨ (result.1 = Return 1
     ∧ ((checkStreamFormat reader = None
         ∧ err result.2 = err s +:+ "ERROR: Cannot determine file format." +:+ nl)
        ∨ complaint s result.2))
  ∨ (∃ msg, result.1 = Abort msg
            ∧ checkStreamFormat reader = Some 2
            ∧ ((sourceFormat options = FASTA ∧ msg = "Should never reach here!" +:+ nl)
               ∨ (debug = true ∧ outFormatOf (targetFormat options) ≠ NONE
                  ∧ (msg = "SEQAN_ASSERT_GEQ(p, 0.0)"
                     ∨ msg = "SEQAN_ASSERT_LEQ(p, 1.0)")))).
Proof.
  cbv zeta. destruct (checkStreamFormat reader) as [tagId|] eqn:Hfmt.
  2:{ right; left. unfold runConvert. rewrite Hfmt. simpl. split; [done|]. by left. }
  destruct (runConvert_format pow log10 undefined debug signed EOF_BEFORE_SUCCESS writeStatus
              uninitialized options reader tagId s Hfmt) as (notice & _ & ->).
  set (s0 := {| out := out s; err := err s +:+ notice; cerr := cerr s |}).
  destruct (Z.eqb_spec tagId 2) as [->|Htag].
  - destruct (sourceGuess_outcome EOF_BEFORE_SUCCESS options reader s0)
      as [(e & Hne & Hany)|[(s' & Hsg & Hc)|(Hfasta & Hsg)]].
    + destruct (guessFormat options) eqn:Hguess.
      * left. unfold convertFastq, mbind, M_bind. by rewrite Hany, Hguess.
      * destruct (convertFastq_converts pow log10 undefined debug signed EOF_BEFORE_SUCCESS
                    writeStatus uninitialized options reader e Hguess Hany)
          as (notice2 & _ & Hconvert).
        unfold mbind, M_bind. rewrite Hconvert.
        destruct (decide (outFormatOf (targetFormat options) ≠ NONE)) as [Hout|Hout].
        -- destruct (buildConversionTable _ _ _ _ _ _ _ _) as [table|msg] eqn:Hbuild.
           ++ destruct (fastqLoop_outcome writeStatus options e
                          (outFormatOf (targetFormat options)) table (reads reader) 1
                          {| out := out s0; err := err s0 +:+ notice2; cerr := cerr s0 |})
                as [(s' & -> & Hc)|(s' & -> & Hc)]; [left|right; left]; simpl.
              ** done.
              ** split; [done|]. right. exact Hc.
           ++ right; right. exists msg. split; [done|]. split; [done|]. right.
              apply build_failure in Hbuild as [Hdebug Hmsg];
                [done|apply length_uninitialized|done..].
        -- destruct (fastqLoop_outcome writeStatus options e
                       (outFormatOf (targetFormat options)) (uninitialized <$> seqZ 0 256)
                       (reads reader) 1
                       {| out := out s0; err := err s0 +:+ notice2; cerr := cerr s0 |})
             as [(s' & -> & Hc)|(s' & -> & Hc)]; [left|right; left]; simpl.
           ++ done.
           ++ split; [done|]. right. exact Hc.
    + right; left. unfold convertFastq, mbind, M_bind. rewrite Hsg. simpl.
      split; [done|]. right. exact Hc.
    + right; right. eexists. unfold convertFastq, mbind, M_bind. rewrite Hsg. simpl.
      split; [done|]. split; [done|]. by left.
  - destruct (fastaLoop_outcome writeStatus options (reads reader) 1 s0)
      as [(s' & Hloop & Hc)|(s' & Hloop & Hc)]; [left|right; left];
      unfold mbind, M_bind; rewrite Hloop; simpl.
    + done.
    + split; [done|]. right. exact Hc.
Qed.

(** ** Renaming *)

Lemma numAt_renaming options num (k : nat) :
  renameToNumbers options = true → 0 ≤ num < 2 ^ 32 →
  numAt options num k = (num + Z.of_nat k) mod 2 ^ 32.
Proof.
  intros Hrename Hnum. unfold numAt. induction k as [|k IH].
  - simpl. rewrite Z.add_0_r. symmetry. by apply Z.mod_small.
  - rewrite Nat.iter_succ, IH. unfold nextNum. rewrite Hrename.
    rewrite Zplus_mod_idemp_l. f_equal. lia.
Qed.

(** X15.  When identifiers are renamed, the record at position [k] (from 0)
    of a run gets the decimal numeral of [k + 1] as identifier, whatever its
    own identifier was, so that the first 2^32 - 1 records get pairwise
    distinct identifiers; the counter is an [unsigned] and wraps: the record
    at position 2^32 - 1 is named 0. *)
Theorem renamed_identifiers options (k k' : nat) id id' :
  renameToNumbers options = true →
  (Z.of_nat k < 2 ^ 32 - 1 →
   renamed options (numAt options 1 k) id = pretty (1 + Z.of_nat k))
  ∧ (Z.of_nat k < 2 ^ 32 - 1 → Z.of_nat k' < 2 ^ 32 - 1 → k ≠ k' →
     renamed options (numAt options 1 k) id ≠ renamed options (numAt options 1 k') id')
  ∧ (Z.of_nat k = 2 ^ 32 - 1 → renamed options (numAt options 1 k) id = "0").
Proof.
  intros Hrename.
  assert (Hid : ∀ (n : nat) i,
             renamed options (numAt options 1 n) i = pretty ((1 + Z.of_nat n) mod 2 ^ 32)).
  { intros n i. unfold renamed. rewrite Hrename. by rewrite numAt_renaming by (done || lia). }
  split; [|split].
  - intros Hk. rewrite Hid. by rewrite Z.mod_small by lia.
  - intros Hk Hk' Hne. rewrite !Hid. rewrite !Z.mod_small by lia.
    intros Heq. apply (inj pretty) in Heq. lia.
  - intros Hk. rewrite Hid. replace (1 + Z.of_nat k) with (2 ^ 32) by lia. reflexivity.
Qed.

Lemma renamed_identifiers_witness :
  renamed {| renameToNumbers := true; keepNs := false; verbosity := 0; gzip := false;
             guessFormat := false; sourceFormat := AUTO; targetFormat := FASTA |}
    (numAt {| renameToNumbers := true; keepNs := false; verbosity := 0; gzip := false;
              guessFormat := false; sourceFormat := AUTO; targetFormat := FASTA |} 1 2)
    "read/1"
  = pretty 3.
Proof.
  apply (renamed_identifiers
           {| renameToNumbers := true; keepNs := false; verbosity := 0; gzip := false;
              guessFormat := false; sourceFormat := AUTO; targetFormat := FASTA |}
           2 0 "read/1" ""); [reflexivity | lia].
Defined.

(** ** Options that are not read *)

Section UnusedOptions.

Context (pow : float → float → float) (log10 : float → float)
        (undefined : float → Z) (debug signed : bool) (EOF_BEFORE_SUCCESS : Z)
        (writeStatus : list OutEvent → OutEvent → Z) (uninitialized : Z → Z).

Lemma fastqLoop_options options options' formatGuess outFormat table rs : ∀ num s,
  renameToNumbers options = renameToNumbers options' →
  fastqLoop writeStatus options formatGuess outFormat table num rs s
  = fastqLoop writeStatus options' formatGuess outFormat table num rs s.
Proof.
  induction rs as [|r rs IH]; intros num s Hrename; [done|].
  simpl. unfold outputRecord, renamed, nextNum. rewrite Hrename.
  destruct (negb (read_res r =? 0)); [done|].
  unfold mbind, M_bind.
  destruct (writeRecord writeStatus _ s) as [[st| |] s']; [|done..].
  destruct (negb (st =? 0)); [done|]. by apply IH.
Qed.

Lemma fastaLoop_options options options' rs : ∀ num s,
  renameToNumbers options = renameToNumbers options' →
  fastaLoop writeStatus options num rs s = fastaLoop writeStatus options' num rs s.
Proof.
  induction rs as [|r rs IH]; intros num s Hrename; [done|].
  simpl. unfold renamed, nextNum. rewrite Hrename.
  destruct (negb (read_res r =? 0)); [done|].
  unfold mbind, M_bind.
  destruct (writeRecord writeStatus _ s) as [[st| |] s']; [|done..].
  destruct (negb (st =? 0)); [done|]. by apply IH.
Qed.

Lemma bind_ext {A B : Type} (m : M A) (f g : A → M B) s :
  (∀ a t, f a t = g a t) → (m ≫= f) s = (m ≫= g) s.
Proof. intros Hfg. unfold mbind, M_bind. destruct (m s) as [[a| |] t]; auto. Qed.

Lemma bind_cong {A B : Type} (m m' : M A) (f : A → M B) s :
  m s = m' s → (m ≫= f) s = (m' ≫= f) s.
Proof. intros Hm. unfold mbind, M_bind. by rewrite Hm. Qed.

Lemma convertFastq_options options options' reader s :
  renameToNumbers options = renameToNumbers options' →
  verbosity options = verbosity options' →
  guessFormat options = guessFormat options' →
  sourceFormat options = sourceFormat options' →
  targetFormat options = targetFormat options' →
  convertFastq pow log10 undefined debug signed EOF_BEFORE_SUCCESS writeStatus uninitialized
    options reader s
  = convertFastq pow log10 undefined debug signed EOF_BEFORE_SUCCESS writeStatus uninitialized
      options' reader s.
Proof.
  intros Hrename Hverb Hguess Hsource Htarget.
  unfold convertFastq, sourceGuess. rewrite Hverb, Hguess, Hsource, Htarget.
  apply bind_ext. intros e t. cbv zeta.
  destruct (guessFormat options'); [done|].
  apply bind_ext. intros [] t2. apply bind_ext. intros table t3.
  by apply fastqLoop_options.
Qed.

(** [runConvert] reads five of the options. *)
Lemma runConvert_options options options' reader s :
  renameToNumbers options = renameToNumbers options' →
  verbosity options = verbosity options' →
  guessFormat options = guessFormat options' →
  sourceFormat options = sourceFormat options' →
  targetFormat options = targetFormat options' →
  runConvert pow log10 undefined debug signed EOF_BEFORE_SUCCESS writeStatus uninitialized
    options reader s
  = runConvert pow log10 undefined debug signed EOF_BEFORE_SUCCESS writeStatus uninitialized
      options' reader s.
Proof.
  intros Hrename Hverb Hguess Hsource Htarget.
  unfold runConvert. rewrite Hverb.
  destruct (checkStreamFormat reader) as [tagId|]; [|done].
  apply bind_ext. intros [] t. apply bind_cong.
  destruct (tagId =? 2).
  - by apply convertFastq_options.
  - by apply fastaLoop_options.
Qed.

End UnusedOptions.

(** X16.  [runConvert] reads neither [keepNs] nor [gzip]: a run goes the same
    way, to the same output, whatever these two options are. *)
Theorem keepNs_and_gzip_unused pow log10 undefined debug signed EOF_BEFORE_SUCCESS writeStatus
    uninitialized options keep zip reader s :
  runConvert pow log10 undefined debug signed EOF_BEFORE_SUCCESS writeStatus uninitialized
    {| renameToNumbers := renameToNumbers options; keepNs := keep;
       verbosity := verbosity options; gzip := zip; guessFormat := guessFormat options;
       sourceFormat := sourceFormat options; targetFormat := targetFormat options |}
    reader s
  = runConvert pow log10 undefined debug signed EOF_BEFORE_SUCCESS writeStatus uninitialized
      options reader s.
Proof. by apply runConvert_options. Qed.

(** X17.  With the source format [fasta] and a FASTQ input, the program
    aborts at SEQAN_FAIL before anything is written to the output, also in a
    run that only guesses. *)
Theorem fasta_source_on_fastq_aborts pow log10 undefined debug signed EOF_BEFORE_SUCCESS
    writeStatus uninitialized options reader :
  checkStreamFormat reader = Some 2 →
  sourceFormat options = FASTA →
  ∃ notice,
    (verbosity options < 2 → notice = "")
    ∧ runConvert pow log10 undefined debug signed EOF_BEFORE_SUCCESS writeStatus uninitialized
        options reader noOutput
      = (Abort ("Should never reach here!" +:+ nl),
         {| out := []; err := notice; cerr := "" |}).
Proof.
  intros Hfmt Hsource.
  destruct (runConvert_format pow log10 undefined debug signed EOF_BEFORE_SUCCESS writeStatus
              uninitialized options reader 2 noOutput Hfmt) as (notice & Hnotice & ->).
  exists notice. split; [done|].
  unfold convertFastq, sourceGuess, mbind, M_bind. by rewrite Hsource.
Qed.

Lemma fasta_source_on_fastq_aborts_witness :
  ∃ notice,
    runConvert referencePow referenceLog10 (λ _, INT_MIN) false true 1024 (λ _ _, 0) (λ _, 0)
      {| renameToNumbers := false; keepNs := false; verbosity := 0; gzip := false;
         guessFormat := true; sourceFormat := FASTA; targetFormat := FASTA |}
      {| checkStreamFormat := Some 2; limitedReads := []; reads := [] |}
      noOutput
    = (Abort ("Should never reach here!" +:+ nl),
       {| out := []; err := notice; cerr := "" |}).
Proof.
  destruct (fasta_source_on_fastq_aborts referencePow referenceLog10 (λ _, INT_MIN) false
              true 1024 (λ _ _, 0) (λ _, 0)
              {| renameToNumbers := false; keepNs := false; verbosity := 0; gzip := false;
                 guessFormat := true; sourceFormat := FASTA; targetFormat := FASTA |}
              {| checkStreamFormat := Some 2; limitedReads := []; reads := [] |})
    as (notice & _ & Hrun); [reflexivity..|].
  exists notice. exact Hrun.
Defined.

(** ** The entry point *)

Section MainFacts.

Context (pow : float → float → float) (log10 : float → float)
        (undefined : float → Z) (debug signed : bool) (EOF_BEFORE_SUCCESS : Z)
        (uninitialized : Z → Z)
        (writeStatusOn : Destination → list OutEvent → OutEvent → Z)
        (cinReader : Reader) (ifstreamReader : string → Reader)
        (gzopen ofstream_good : string → bool).

(** A run that only guesses, on a FASTQ input whose source scale is
    determined. *)
Lemma run_guess_only writeStatus options reader e :
  checkStreamFormat reader = Some 2 →
  guessFormat options = true →
  (∀ t, sourceGuess EOF_BEFORE_SUCCESS options reader t = (Next e, t)) →
  runConvert pow log10 undefined debug signed EOF_BEFORE_SUCCESS writeStatus uninitialized
    options reader noOutput
  = (Return 0,
     {| out := [Put "content-type: "; Put (formatName e); Put nl];
        err := if 2 <=? verbosity options then "File format is FASTQ." +:+ nl else "";
        cerr := "" |}).
Proof.
  intros Hfmt Hguess Hany. unfold runConvert. rewrite Hfmt. simpl.
  unfold convertFastq, mbind, M_bind.
  destruct (2 <=? verbosity options); simpl; rewrite Hany, Hguess; reflexivity.
Qed.

Lemma formatOfValue_valid name tmp :
  tmp ∈ ["fasta"; "illumina"; "sanger"; "solexa"] →
  ∃ format, formatOfValue name tmp = Val format.
Proof.
  intros Hin. rewrite !elem_of_cons, elem_of_nil in Hin.
  destruct Hin as [->|[->|[->|[->|[]]]]]; by eexists.
Qed.

End MainFacts.

(** X18.  Asked to guess ([-g]) on a FASTQ input with the source scale given
    as [sanger], [solexa] or [illumina] and no output file, [main] answers
    with that very name: it puts [content-type: text/x-fastq-] followed by
    the name and a line feed on the standard output and returns 0.  On
    [std::cerr], which [main] passes as [err], it prints nothing, except with
    [-vv] the one notice [File format is FASTQ.] *)
Theorem given_scale_is_reported pow log10 undefined debug signed EOF_BEFORE_SUCCESS
    uninitialized writeStatusOn cinReader ifstreamReader gzopen ofstream_good parser scale :
  parse parser = PARSE_OK →
  isSet_guess_format parser = true →
  value_source_format parser = Some scale →
  scale ∈ ["sanger"; "solexa"; "illumina"] →
  (∀ tmp, value_target_format parser = Some tmp →
          tmp ∈ ["fasta"; "illumina"; "sanger"; "solexa"]) →
  value_out_file parser = None →
  checkStreamFormat cinReader = Some 2 →
  (∀ path, checkStreamFormat (ifstreamReader path) = Some 2) →
  main pow log10 undefined debug signed EOF_BEFORE_SUCCESS uninitialized writeStatusOn
    cinReader ifstreamReader gzopen ofstream_good parser
  = (Exited 0, Some StdOut,
     {| out := [Put "content-type: "; Put ("text/x-fastq-" +:+ scale); Put nl];
        err := if isSet_very_verbose parser then "File format is FASTQ." +:+ nl else "";
        cerr := "" |}).
Proof.
  intros Hparse Hguess Hsource Hscale Htarget Hout Hcin Hifstream.
  assert (Hsrc : ∃ e, formatName e = "text/x-fastq-" +:+ scale
                      ∧ ∃ format, formatOfValue "source-format" scale = Val format
                                  ∧ ∀ options reader t,
                                      sourceFormat options = format →
                                      sourceGuess EOF_BEFORE_SUCCESS options reader t
                                      = (Next e, t)).
  { rewrite !elem_of_cons, elem_of_nil in Hscale.
    destruct Hscale as [->|[->|[->|[]]]].
    - exists SANGER. split; [done|]. exists FASTQ_SANGER. split; [done|].
      intros options reader t Hsf. unfold sourceGuess. by rewrite Hsf.
    - exists SOLEXA. split; [done|]. exists FASTQ_SOLEXA. split; [done|].
      intros options reader t Hsf. unfold sourceGuess. by rewrite Hsf.
    - exists ILLUMINA. split; [done|]. exists FASTQ_ILLUMINA. split; [done|].
      intros options reader t Hsf. unfold sourceGuess. by rewrite Hsf. }
  destruct Hsrc as (e & Hname & format & Hformat & Hany).
  assert (Htgt : ∃ target,
             match value_target_format parser with
             | Some tmp => formatOfValue "target-format" tmp
             | None => Val (targetFormat defaultOptions)
             end = Val target).
  { destruct (value_target_format parser) as [tmp|]; [|by eexists].
    by apply formatOfValue_valid, Htarget. }
  destruct Htgt as [target Htgt].
  unfold main, parseArgs. rewrite Hparse, Hsource, Hformat, Htgt, Hout, Hguess.
  rewrite decide_False by (intros H; by apply H). simpl.
  rewrite <- Hname.
  assert (Hrun : ∀ reader, checkStreamFormat reader = Some 2 →
            convertOn pow log10 undefined debug signed EOF_BEFORE_SUCCESS uninitialized
              writeStatusOn StdOut reader
              {| renameToNumbers := isSet_rename_to_numbers parser;
                 keepNs := isSet_keep_with_ns parser;
                 verbosity := if isSet_very_verbose parser then 2
                              else if isSet_verbose parser then 1 else 0;
                 gzip := isSet_gzip parser; guessFormat := true;
                 sourceFormat := format; targetFormat := target |}
            = (Exited 0, Some StdOut,
               {| out := [Put "content-type: "; Put (formatName e); Put nl];
                  err := if isSet_very_verbose parser
                         then "File format is FASTQ." +:+ nl else "";
                  cerr := "" |})).
  { intros reader Hfmt. unfold convertOn.
    set (options := {| renameToNumbers := isSet_rename_to_numbers parser;
                       keepNs := isSet_keep_with_ns parser;
                       verbosity := if isSet_very_verbose parser then 2
                                    else if isSet_verbose parser then 1 else 0;
                       gzip := isSet_gzip parser; guessFormat := true;
                       sourceFormat := format; targetFormat := target |}).
    assert (Hgo : ∀ t, sourceGuess EOF_BEFORE_SUCCESS options reader t = (Next e, t))
      by (intros t; by apply Hany).
    rewrite (run_guess_only pow log10 undefined debug signed EOF_BEFORE_SUCCESS
               uninitialized (writeStatusOn StdOut) options reader e Hfmt eq_refl Hgo).
    simpl. by destruct (isSet_very_verbose parser), (isSet_verbose parser). }
  unfold convertFrom. simpl.
  case_decide; apply Hrun; auto.
Qed.

Lemma given_scale_is_reported_witness :
  main referencePow referenceLog10 (λ _, INT_MIN) false true 1024 (λ _, 0) (λ _ _ _, 0)
    {| checkStreamFormat := Some 2; limitedReads := []; reads := [] |}
    (λ _, {| checkStreamFormat := Some 2; limitedReads := []; reads := [] |})
    (λ _, true) (λ _, true)
    {| parse := PARSE_OK; isSet_rename_to_numbers := false; isSet_keep_with_ns := false;
       isSet_verbose := false; isSet_very_verbose := true; isSet_guess_format := true;
       isSet_gzip := false; value_source_format := Some "solexa";
       value_target_format := None; value_in_file := None; value_out_file := None |}
  = (Exited 0, Some StdOut,
     {| out := [Put "content-type: "; Put "text/x-fastq-solexa"; Put nl];
        err := "File format is FASTQ." +:+ nl; cerr := "" |}).
Proof.
  apply (given_scale_is_reported referencePow referenceLog10 (λ _, INT_MIN) false true 1024
           (λ _, 0) (λ _ _ _, 0)
           {| checkStreamFormat := Some 2; limitedReads := []; reads := [] |}
           (λ _, {| checkStreamFormat := Some 2; limitedReads := []; reads := [] |})
           (λ _, true) (λ _, true)
           {| parse := PARSE_OK; isSet_rename_to_numbers := false;
              isSet_keep_with_ns := false; isSet_verbose := false;
              isSet_very_verbose := true; isSet_guess_format := true;
              isSet_gzip := false; value_source_format := Some "solexa";
              value_target_format := None; value_in_file := None;
              value_out_file := None |}
           "solexa"); try reflexivity.
  - rewrite !elem_of_cons. auto.
  - intros tmp H. discriminate H.
Defined.

(** X19.  Without an output file, [-z] changes nothing: [main] writes to the
    standard output, uncompressed, and ends the same way with the same
    streams whether or not the flag is set. *)
Theorem gzip_needs_out_file pow log10 undefined debug signed EOF_BEFORE_SUCCESS
    uninitialized writeStatusOn cinReader ifstreamReader gzopen ofstream_good parser zip :
  value_out_file parser = None →
  main pow log10 undefined debug signed EOF_BEFORE_SUCCESS uninitialized writeStatusOn
    cinReader ifstreamReader gzopen ofstream_good
    {| parse := parse parser;
       isSet_rename_to_numbers := isSet_rename_to_numbers parser;
       isSet_keep_with_ns := isSet_keep_with_ns parser;
       isSet_verbose := isSet_verbose parser;
       isSet_very_verbose := isSet_very_verbose parser;
       isSet_guess_format := isSet_guess_format parser;
       isSet_gzip := zip;
       value_source_format := value_source_format parser;
       value_target_format := value_target_format parser;
       value_in_file := value_in_file parser;
       value_out_file := value_out_file parser |}
  = main pow log10 undefined debug signed EOF_BEFORE_SUCCESS uninitialized writeStatusOn
      cinReader ifstreamReader gzopen ofstream_good parser.
Proof.
  intros Hout. unfold main, parseArgs. simpl. rewrite Hout.
  destruct (parse parser); [|done..].
  destruct (match value_source_format parser with Some _ => _ | None => _ end)
    as [source|]; [|done].
  destruct (match value_target_format parser with Some _ => _ | None => _ end)
    as [target|]; [|done].
  rewrite !decide_False by (intros H; by apply H).
  unfold convertFrom. simpl. unfold convertOn.
  case_decide; by rewrite (runConvert_options _ _ _ _ _ _ _ _ _
                             {| renameToNumbers := isSet_rename_to_numbers parser;
                                keepNs := isSet_keep_with_ns parser;
                                verbosity := if isSet_very_verbose parser then 2
                                             else if isSet_verbose parser then 1 else 0;
                                gzip := isSet_gzip parser;
                                guessFormat := isSet_guess_format parser;
                                sourceFormat := source; targetFormat := target |}).
Qed.

Lemma gzip_needs_out_file_witness :
  main referencePow referenceLog10 (λ _, INT_MIN) false true 1024 (λ _, 0) (λ _ _ _, 0)
    {| checkStreamFormat := Some 1; limitedReads := []; reads := [] |}
    (λ _, {| checkStreamFormat := None; limitedReads := []; reads := [] |})
    (λ _, true) (λ _, true)
    {| parse := PARSE_OK; isSet_rename_to_numbers := false; isSet_keep_with_ns := false;
       isSet_verbose := false; isSet_very_verbose := false; isSet_guess_format := false;
       isSet_gzip := true; value_source_format := None; value_target_format := None;
       value_in_file := None; value_out_file := None |}
  = main referencePow referenceLog10 (λ _, INT_MIN) false true 1024 (λ _, 0) (λ _ _ _, 0)
      {| checkStreamFormat := Some 1; limitedReads := []; reads := [] |}
      (λ _, {| checkStreamFormat := None; limitedReads := []; reads := [] |})
      (λ _, true) (λ _, true)
      {| parse := PARSE_OK; isSet_rename_to_numbers := false; isSet_keep_with_ns := false;
         isSet_verbose := false; isSet_very_verbose := false; isSet_guess_format := false;
         isSet_gzip := false; value_source_format := None; value_target_format := None;
         value_in_file := None; value_out_file := None |}.
Proof.
  exact (gzip_needs_out_file referencePow referenceLog10 (λ _, INT_MIN) false true 1024
           (λ _, 0) (λ _ _ _, 0)
           {| checkStreamFormat := Some 1; limitedReads := []; reads := [] |}
           (λ _, {| checkStreamFormat := None; limitedReads := []; reads := [] |})
           (λ _, true) (λ _, true)
           {| parse := PARSE_OK; isSet_rename_to_numbers := false;
              isSet_keep_with_ns := false; isSet_verbose := false;
              isSet_very_verbose := false; isSet_guess_format := false;
              isSet_gzip := false; value_source_format := None;
              value_target_format := None; value_in_file := None;
              value_out_file := None |}
           true eq_refl).
Defined.

(** X20.  [main] ends without reading any input when the command line is
    not accepted, with status 1 on a parse error and 0 otherwise, and when
    the output file cannot be opened, with status 1 and [Could not open] and
    the path on [std::cerr]. *)
Theorem main_refuses pow log10 undefined debug signed EOF_BEFORE_SUCCESS
    uninitialized writeStatusOn cinReader ifstreamReader gzopen ofstream_good parser :
  (parse parser = PARSE_ERROR →
   main pow log10 undefined debug signed EOF_BEFORE_SUCCESS uninitialized writeStatusOn
     cinReader ifstreamReader gzopen ofstream_good parser
   = (Exited 1, None, noOutput))
  ∧ (parse parser = PARSE_HELP →
     main pow log10 undefined debug signed EOF_BEFORE_SUCCESS uninitialized writeStatusOn
       cinReader ifstreamReader gzopen ofstream_good parser
     = (Exited 0, None, noOutput))
  ∧ (∀ options paths,
       parseArgs defaultOptions defaultPaths parser = Val (PARSE_OK, options, paths) →
       outPath paths ≠ "" →
       (gzip options = true → gzopen (outPath paths) = false →
        main pow log10 undefined debug signed EOF_BEFORE_SUCCESS uninitialized writeStatusOn
          cinReader ifstreamReader gzopen ofstream_good parser
        = (Exited 1, None,
           {| out := []; err := "";
              cerr := "Could not open " +:+ outPath paths +:+ nl |}))
       ∧ (gzip options = false → ofstream_good (outPath paths) = false →
          main pow log10 undefined debug signed EOF_BEFORE_SUCCESS uninitialized
            writeStatusOn cinReader ifstreamReader gzopen ofstream_good parser
          = (Exited 1, None,
             {| out := []; err := "";
                cerr := "ERROR: Could not open " +:+ outPath paths +:+ nl |}))).
Proof.
  split; [|split].
  - intros Hparse. unfold main, parseArgs. by rewrite Hparse.
  - intros Hparse. unfold main, parseArgs. by rewrite Hparse.
  - intros options paths Hargs Hout. unfold main. rewrite Hargs.
    destruct (decide (PARSE_OK ≠ PARSE_OK)) as [Hne|_]; [exfalso; by apply Hne|].
    split; intros Hzip Hopen; unfold convertFrom; rewrite Hzip, Hopen;
      repeat case_decide; first [done | exfalso; by apply Hout].
Qed.

Lemma main_refuses_witness :
  main referencePow referenceLog10 (λ _, INT_MIN) false true 1024 (λ _, 0) (λ _ _ _, 0)
    {| checkStreamFormat := Some 2; limitedReads := []; reads := [] |}
    (λ _, {| checkStreamFormat := Some 2; limitedReads := []; reads := [] |})
    (λ _, false) (λ _, false)
    {| parse := PARSE_OK; isSet_rename_to_numbers := false; isSet_keep_with_ns := false;
       isSet_verbose := false; isSet_very_verbose := false; isSet_guess_format := false;
       isSet_gzip := true; value_source_format := None; value_target_format := None;
       value_in_file := None; value_out_file := Some "out.fa" |}
  = (Exited 1, None,
     {| out := []; err := ""; cerr := "Could not open " +:+ "out.fa" +:+ nl |}).
Proof.
  destruct (main_refuses referencePow referenceLog10 (λ _, INT_MIN) false true 1024 (λ _, 0)
              (λ _ _ _, 0)
              {| checkStreamFormat := Some 2; limitedReads := []; reads := [] |}
              (λ _, {| checkStreamFormat := Some 2; limitedReads := []; reads := [] |})
              (λ _, false) (λ _, false)
              {| parse := PARSE_OK; isSet_rename_to_numbers := false;
                 isSet_keep_with_ns := false; isSet_verbose := false;
                 isSet_very_verbose := false; isSet_guess_format := false;
                 isSet_gzip := true; value_source_format := None;
                 value_target_format := None; value_in_file := None;
                 value_out_file := Some "out.fa" |}) as (_ & _ & Hopen).
  destruct (Hopen _ _ eq_refl) as [Hgz _]; [discriminate|].
  exact (Hgz eq_refl eq_refl).
Defined.
